(** * AIStudio -> OpenWebUI chat converter

    A shallow embedding of [convert_aistudio_to_openwebui]
    (file [convert_aistudio_to_openwebui.py]) and the properties of the
    conversion that the specification states.

    Modelling conventions.
    - A parsed JSON object whose keys may be missing is a record of
      [option] fields; [d.get(k, v)] is [default v (k d)].  When a key is
      present its value has the JSON type the converter expects.
    - A Python [str] is a [string]; one [ascii] stands for one character.
    - The message dictionaries built by the loop are objects that are
      shared between [messages] (a dict) and [messages_list] (a list) and
      mutated after they have been stored.  They live in an explicit heap
      (a list of objects, a reference is an index), and the dict and the
      list hold references.
    - [uuid.uuid4()] is an oracle: [uuid4 k] is the string of the [k]-th
      identifier drawn during one call of the converter.
    - [datetime.now()] is read once; its integer value is the argument
      [now]. *)

From Stdlib Require Import ZArith Ascii.
From stdpp Require Import base option list strings gmap fin_maps pretty.

Local Open Scope Z_scope.

(** ** Exceptions *)

Inductive PyError := KeyError | IndexError | DanglingRef.

Inductive result (A : Type) : Type :=
  | Ok (a : A)
  | Raise (e : PyError).
Arguments Ok {A} a.
Arguments Raise {A} e.

Global Instance result_ret : MRet result := λ A a, Ok a.
Global Instance result_bind : MBind result := λ A B f m,
  match m with
  | Ok a => f a
  | Raise e => Raise e
  end.

(** ** Python strings *)

Module Str.

Definition nl : string := String "010"%char "".
Definition dq : string := String "034"%char "".

(** Truth value of a [str]: only the empty string is false. *)
Definition truthy (s : string) : bool :=
  match s with
  | "" => false
  | String _ _ => true
  end.

(** [sep.join(l)] *)
Fixpoint join (sep : string) (l : list string) : string :=
  match l with
  | [] => ""
  | [s] => s
  | s :: l' => s +:+ sep +:+ join sep l'
  end.

(** [s[:n]] for [0 <= n] *)
Fixpoint take (n : nat) (s : string) : string :=
  match n, s with
  | S n', String a s' => String a (take n' s')
  | _, _ => ""
  end.

(** [s[n:]] for [0 <= n] *)
Fixpoint drop (n : nat) (s : string) : string :=
  match n, s with
  | S n', String _ s' => drop n' s'
  | _, _ => s
  end.

(** [s.rfind(c)] for a one-character [c]: the highest index at which
    [c] occurs, [-1] if there is none. *)
Fixpoint rfind (c : ascii) (s : string) : Z :=
  match s with
  | "" => -1
  | String a s' =>
      let r := rfind c s' in
      if bool_decide (0 ≤ r) then r + 1
      else if bool_decide (a = c) then 0 else -1
  end.

(** [c in s] for a one-character [c] *)
Fixpoint mem (c : ascii) (s : string) : bool :=
  match s with
  | "" => false
  | String a s' => bool_decide (a = c) || mem c s'
  end.

End Str.

(** ** [os.path] (POSIX flavour) *)

Module OsPath.

(** [posixpath.basename]: [i = p.rfind('/') + 1; return p[i:]] *)
Definition basename (p : string) : string :=
  let i := Str.rfind "/"%char p + 1 in
  Str.drop (Z.to_nat i) p.

(** The loop of [genericpath._splitext] that skips leading dots: it
    inspects [p[filenameIndex]] for [filenameIndex] up to, and not
    including, [dotIndex]; [n] is [dotIndex - filenameIndex].  It
    answers [true] when it meets a character other than a dot. *)
Fixpoint splitext_scan (p : string) (filenameIndex n : nat) : bool :=
  match n with
  | O => false
  | S n' =>
      if bool_decide (Str.take 1 (Str.drop filenameIndex p) ≠ ".")
      then true
      else splitext_scan p (S filenameIndex) n'
  end.

(** [posixpath.splitext], that is [genericpath._splitext(p, '/', None, '.')] *)
Definition splitext (p : string) : string * string :=
  let sepIndex := Str.rfind "/"%char p in
  let dotIndex := Str.rfind "."%char p in
  if bool_decide (sepIndex < dotIndex)
     && splitext_scan p (Z.to_nat (sepIndex + 1))
                        (Z.to_nat (dotIndex - (sepIndex + 1)))
  then (Str.take (Z.to_nat dotIndex) p, Str.drop (Z.to_nat dotIndex) p)
  else (p, "").

End OsPath.

(** ** The source document *)

Record Part := {
  part_text : option string;
  part_thought : option bool
}.

Record Chunk := {
  chunk_isThought : option bool;
  chunk_text : option string;
  chunk_parts : option (list Part);
  chunk_role : option string
}.

Record ChunkedPrompt := { cp_chunks : option (list Chunk) }.

Record RunSettings := { rs_model : option string }.

Record AIStudioData := {
  chunkedPrompt : option ChunkedPrompt;
  runSettings : option RunSettings
}.

(** The empty dict [{}] used as a default by [.get]. *)
Definition no_prompt : ChunkedPrompt := {| cp_chunks := None |}.
Definition no_settings : RunSettings := {| rs_model := None |}.

(** Truth value of a Python list. *)
Definition list_truthy {A} (l : list A) : bool :=
  match l with
  | [] => false
  | _ :: _ => true
  end.

(** ** The target document *)

(** A message dict.  The four last keys exist on assistant messages only. *)
Record Message := {
  msg_id : string;
  msg_parentId : option string;
  msg_childrenIds : list string;
  msg_role : string;
  msg_content : string;
  msg_timestamp : Z;
  msg_model : option string;
  msg_modelName : option string;
  msg_modelIdx : option Z;
  msg_done : option bool
}.

(** A reference to a message object, and the objects allocated so far. *)
Abbreviation ref := nat (only parsing).
Abbreviation Heap := (list Message).

Record History := {
  history_messages : gmap string ref;
  history_currentId : option string
}.

Record Chat := {
  chat_id : string;
  chat_title : string;
  chat_models : list string;
  chat_params : list (string * string);
  chat_history : History;
  chat_messages : list ref;
  chat_tags : list string;
  chat_timestamp : Z;
  chat_files : list string
}.

Record Meta := { meta_tags : list string }.

Record OpenWebUIChat := {
  owc_id : string;
  owc_user_id : string;
  owc_title : string;
  owc_chat : Chat;
  owc_updated_at : Z;
  owc_created_at : Z;
  owc_archived : bool;
  owc_pinned : bool;
  owc_meta : Meta
}.

(** ** The converter *)

(** [chunk.get("isThought", False)] (line 45). *)
Definition is_thought (chunk : Chunk) : bool :=
  default false (chunk_isThought chunk).

(** The list comprehension of line 53. *)
Definition thought_texts_of (thought_parts : list Part) : list string :=
  (λ part, default "" (part_text part))
    <$> List.filter (λ part, default false (part_thought part)) thought_parts.

(** The text a thought chunk contributes (lines 47-55). *)
Definition thought_content_of (chunk : Chunk) : string :=
  let thought_content := default "" (chunk_text chunk) in
  let thought_parts := default [] (chunk_parts chunk) in
  if list_truthy thought_parts then
    let thought_texts := thought_texts_of thought_parts in
    if list_truthy thought_texts
    then Str.join (Str.nl +:+ Str.nl) thought_texts
    else thought_content
  else thought_content.

(** The f-string of line 75. *)
Definition thought_section (combined_thoughts : string) : string :=
  "<details type=" +:+ Str.dq +:+ "reasoning" +:+ Str.dq
    +:+ " done=" +:+ Str.dq +:+ "true" +:+ Str.dq
    +:+ " duration=" +:+ Str.dq +:+ "5" +:+ Str.dq +:+ ">" +:+ Str.nl
    +:+ "<summary>Thought for 5 seconds</summary>" +:+ Str.nl
    +:+ combined_thoughts +:+ Str.nl
    +:+ "</details>" +:+ Str.nl +:+ Str.nl.

(** [aistudio_data.get("runSettings", {}).get("model", "unknown")] *)
Definition model_of (aistudio_data : AIStudioData) : string :=
  default "unknown" (rs_model (default no_settings (runSettings aistudio_data))).

(** [aistudio_data.get("chunkedPrompt", {}).get("chunks", [])] *)
Definition chunks_of (aistudio_data : AIStudioData) : list Chunk :=
  default [] (cp_chunks (default no_prompt (chunkedPrompt aistudio_data))).

(** The local variables of the loop, the heap and the number of
    identifiers drawn so far. *)
Record LoopState := {
  heap : Heap;
  messages : gmap string ref;
  messages_list : list ref;
  parent_id : option string;
  pending_thoughts : list string;
  message_index : Z;
  uuid_calls : nat
}.

(** Reading through a reference. *)
Definition deref (h : Heap) (r : ref) : result Message :=
  match h !! r with
  | Some m => Ok m
  | None => Raise DanglingRef
  end.

(** The message [m] with the list [l] under its key ["childrenIds"]. *)
Definition set_children (l : list string) (m : Message) : Message :=
  {| msg_id := msg_id m;
     msg_parentId := msg_parentId m;
     msg_childrenIds := l;
     msg_role := msg_role m;
     msg_content := msg_content m;
     msg_timestamp := msg_timestamp m;
     msg_model := msg_model m;
     msg_modelName := msg_modelName m;
     msg_modelIdx := msg_modelIdx m;
     msg_done := msg_done m |}.

(** [m["childrenIds"].append(child)] on the object behind [r]. *)
Definition append_child (h : Heap) (r : ref) (child : string) : result Heap :=
  m ← deref h r;
  Ok (<[r := set_children (msg_childrenIds m ++ [child]) m]> h).

(** [d[k]] on a dict. *)
Definition dict_get {V} (d : gmap string V) (k : string) : result V :=
  match d !! k with
  | Some v => Ok v
  | None => Raise KeyError
  end.

(** [l[0]] on a list. *)
Definition list_head {A} (l : list A) : result A :=
  match l with
  | x :: _ => Ok x
  | [] => Raise IndexError
  end.

(** ** The drivers *)

(** String and path functions of the drivers. *)
Module Files.

(** [s.startswith(prefix)] *)
Fixpoint startswith (s prefix : string) : bool :=
  match prefix, s with
  | "", _ => true
  | String a prefix', String b s' => bool_decide (a = b) && startswith s' prefix'
  | String _ _, "" => false
  end.

(** [s.endswith(suffix)]: [suffix] is not longer than [s] and the last
    [len(suffix)] characters of [s] are [suffix]. *)
Definition endswith (s suffix : string) : bool :=
  bool_decide (String.length suffix ≤ String.length s)%nat
  && bool_decide
       (Str.drop (String.length s - String.length suffix) s = suffix).

(** [posixpath.join(a, b)] *)
Definition join (a b : string) : string :=
  if startswith b "/" then b
  else if negb (Str.truthy a) || endswith a "/" then a +:+ b
  else a +:+ "/" +:+ b.

(** The name of the output file of an entry (lines 202-205). *)
Definition output_filename (filename : string) : string :=
  if endswith filename ".json" then filename else filename +:+ ".json".

End Files.

(** An operation of the environment returns, or raises an exception
    [e], of which the drivers use [str(e)] only. *)
Inductive outcome (A : Type) : Type :=
  | Done (a : A)
  | Raised (message : string).
Arguments Done {A} a.
Arguments Raised {A} message.

(** What the drivers ask of their environment, whose state is a
    [World]: reading and parsing a file ([open] and [json.load], lines
    159-160), writing the result ([open] for writing and [json.dump],
    lines 169-170; an exception may leave the world changed), [print],
    [os.makedirs(_, exist_ok=True)], [os.listdir] and [os.path.isdir].

    [env_load] answers [Done data] for a file that holds a document of
    the data model above.  [Raised e] is an exception that leaves the
    [try] of [process_file] before the output is opened: one of [open]
    or of [json.load], or one that the converter raises on a parsed
    value that is no such document (a file that holds a JSON list, for
    one); lines 174-176 treat them alike.  A parsed value that is no
    document of the data model and that the converter still accepts
    has no counterpart here. *)
Record Env (World : Type) := {
  env_load : string → World → outcome AIStudioData;
  env_dump : string → Heap * list OpenWebUIChat → World → World * option string;
  env_print : string → World → World;
  env_makedirs : string → World → outcome World;
  env_listdir : string → World → outcome (list string);
  env_isdir : string → World → bool
}.
Arguments env_load {World} _ _ _.
Arguments env_dump {World} _ _ _ _.
Arguments env_print {World} _ _ _.
Arguments env_makedirs {World} _ _ _.
Arguments env_listdir {World} _ _ _.
Arguments env_isdir {World} _ _ _.

(** The two messages of [process_file] (lines 172 and 175). *)
Definition success_message (input_path output_path : string) : string :=
  "Successfully converted " +:+ input_path +:+ " to " +:+ output_path.

Definition error_message (input_path e : string) : string :=
  "Error converting " +:+ input_path +:+ ": " +:+ e.






(** ** Sample documents *)

Module Sample.

(** An identifier oracle: ["id-0"], ["id-1"], ... *)
Definition uuid4 (k : nat) : string :=
  "id-" +:+ String (ascii_of_nat (48 + k)) "".

Definition clock : Z := 1700000000.

Definition turn (role text : string) : Chunk :=
  {| chunk_isThought := None;
     chunk_text := Some text;
     chunk_parts := None;
     chunk_role := Some role |}.

Definition thought (text : string) : Chunk :=
  {| chunk_isThought := Some true;
     chunk_text := Some text;
     chunk_parts := None;
     chunk_role := Some "model" |}.

(** A thought chunk with labeled parts, the second of which is not
    flagged. *)
Definition thought_in_parts : Chunk :=
  {| chunk_isThought := Some true;
     chunk_text := Some "flat";
     chunk_parts :=
       Some [ {| part_text := Some "first"; part_thought := Some true |};
              {| part_text := Some "answer"; part_thought := None |};
              {| part_text := Some "second"; part_thought := Some true |} ];
     chunk_role := Some "model" |}.

(** A thought chunk whose parts are not flagged. *)
Definition thought_unflagged : Chunk :=
  {| chunk_isThought := Some true;
     chunk_text := Some "flat";
     chunk_parts :=
       Some [ {| part_text := Some "x"; part_thought := None |} ];
     chunk_role := Some "model" |}.

(** A thought chunk without text and without parts. *)
Definition thought_blank : Chunk :=
  {| chunk_isThought := Some true;
     chunk_text := None;
     chunk_parts := None;
     chunk_role := None |}.

Definition document (chunks : list Chunk) : AIStudioData :=
  {| chunkedPrompt := Some {| cp_chunks := Some chunks |};
     runSettings := Some {| rs_model := Some "models/gemini-pro" |} |}.

Definition question : Chunk := turn "user" "hi".
Definition answer : Chunk := turn "model" "yo".
Definition follow_up : Chunk := turn "model" "again".

Definition conversation : AIStudioData :=
  document [question; thought "t1"; thought_in_parts; answer; follow_up].


Definition only_thoughts : AIStudioData :=
  document [thought "t1"; thought_unflagged].

(** An oracle that draws the same identifier again and again. *)
Definition same_uuid4 (k : nat) : string := "same".

Definition long_question : Chunk :=
  turn "user"
    "Please explain how the converter derives the title of a conversation.".

(** A world that keeps what was printed and written, latest first.  It
    has the file [in/chat.json], with the sample conversation, and the
    directory [in/sub]. *)
Definition env : Env (list string) :=
  {| env_load := λ path w,
       if bool_decide (path = "in/chat.json") then Done conversation
       else Raised "No such file or directory";
     env_dump := λ path data w, (("write " +:+ path) :: w, None);
     env_print := λ message w, message :: w;
     env_makedirs := λ path w, Done w;
     env_listdir := λ path w, Done ["chat.json"; "sub"; "notes"];
     env_isdir := λ path w, bool_decide (path = "in/sub") |}.

End Sample.

(** Proves the freshness of the identifiers of a closed oracle and number by evaluation. *)
Ltac fresh_sample_ids :=
  split; apply (bool_decide_unpack _); vm_compute; exact I.

Section Converter.

(** The identifier oracle and the clock reading. *)
Variable uuid4 : nat → string.
Variable now : Z.

(** The state before the first iteration (lines 25-42): two
    identifiers have been drawn for the chat and the user. *)
Definition loop_init : LoopState :=
  {| heap := [];
     messages := ∅;
     messages_list := [];
     parent_id := None;
     pending_thoughts := [];
     message_index := 0;
     uuid_calls := 2 |}.

(** Line 65. *)
Definition role_of (chunk : Chunk) : string :=
  if bool_decide (chunk_role chunk = Some "user") then "user" else "assistant".

(** The test of line 71. *)
Definition prepends (st : LoopState) (chunk : Chunk) : bool :=
  bool_decide (role_of chunk = "assistant") && list_truthy (pending_thoughts st).

(** Lines 68-76. *)
Definition content_of (st : LoopState) (chunk : Chunk) : string :=
  let content := default "" (chunk_text chunk) in
  if prepends st chunk then
    let combined_thoughts :=
      Str.join (Str.nl +:+ Str.nl) (pending_thoughts st) in
    thought_section combined_thoughts +:+ content
  else content.

(** The message object of lines 81-95. *)
Definition make_message (aistudio_data : AIStudioData)
    (st : LoopState) (chunk : Chunk) : Message :=
  let assistant := bool_decide (role_of chunk = "assistant") in
  {| msg_id := uuid4 (uuid_calls st);
     msg_parentId := parent_id st;
     msg_childrenIds := [];
     msg_role := role_of chunk;
     msg_content := content_of st chunk;
     msg_timestamp := now + message_index st;
     msg_model := if assistant then Some (model_of aistudio_data) else None;
     msg_modelName := if assistant then Some "Converted from AIStudio" else None;
     msg_modelIdx := if assistant then Some 0 else None;
     msg_done := if assistant then Some true else None |}.

(** Lines 104-105, on the heap [h] and the dict [d] that already hold
    the new message. *)
Definition link_parent (h : Heap) (d : gmap string ref)
    (parent : option string) (message_id : string) : result Heap :=
  match parent with
  | Some pid =>
      if Str.truthy pid && bool_decide (is_Some (d !! pid))
      then p ← dict_get d pid; append_child h p message_id
      else Ok h
  | None => Ok h
  end.

(** One iteration of the loop (lines 43-108). *)
Definition process_chunk (aistudio_data : AIStudioData)
    (st : LoopState) (chunk : Chunk) : result LoopState :=
  if is_thought chunk then
    Ok {| heap := heap st;
          messages := messages st;
          messages_list := messages_list st;
          parent_id := parent_id st;
          pending_thoughts := pending_thoughts st ++ [thought_content_of chunk];
          message_index := message_index st;
          uuid_calls := uuid_calls st |}
  else
    let message_id := uuid4 (uuid_calls st) in
    let message := make_message aistudio_data st chunk in
    let r := length (heap st) in
    let messages1 := <[message_id := r]> (messages st) in
    heap2 ← link_parent (heap st ++ [message]) messages1 (parent_id st) message_id;
    Ok {| heap := heap2;
          messages := messages1;
          messages_list := messages_list st ++ [r];
          parent_id := Some message_id;
          pending_thoughts := if prepends st chunk then [] else pending_thoughts st;
          message_index := message_index st + 1;
          uuid_calls := S (uuid_calls st) |}.

(** The loop over the chunks. *)
Fixpoint run_chunks (aistudio_data : AIStudioData)
    (st : LoopState) (chunks : list Chunk) : result LoopState :=
  match chunks with
  | [] => Ok st
  | chunk :: chunks' =>
      st' ← process_chunk aistudio_data st chunk;
      run_chunks aistudio_data st' chunks'
  end.

(** [messages_list[0][key]], where [field] reads the key. *)
Definition first_message {A} (st : LoopState) (field : Message → A)
    : result A :=
  r ← list_head (messages_list st);
  first ← deref (heap st) r;
  Ok (field first).

(** Title resolution (lines 111-117).  [if filename:] fails for [None]
    and for the empty string. *)
Definition resolve_title (st : LoopState) (filename : option string)
    : result string :=
  if from_option Str.truthy false filename then
    Ok (OsPath.splitext (OsPath.basename (default "" filename))).1
  else
    is_user ←
      (if list_truthy (messages_list st)
       then role ← first_message st msg_role; Ok (bool_decide (role = "user"))
       else Ok false);
    if is_user : bool then
      content ← first_message st msg_content;
      if bool_decide (50 < String.length content)%nat
      then Ok (Str.take 50 content +:+ "...")
      else Ok content
    else Ok "AIStudio Conversation".

(** The record of lines 120-145. *)
Definition openwebui_chat (aistudio_data : AIStudioData)
    (st : LoopState) (title : string) : OpenWebUIChat :=
  let chat_id := uuid4 0 in
  let user_id := uuid4 1 in
  let base_timestamp := now in
  {| owc_id := chat_id;
     owc_user_id := user_id;
     owc_title := title;
     owc_chat :=
       {| chat_id := "";
          chat_title := title;
          chat_models := [model_of aistudio_data];
          chat_params := [];
          chat_history :=
            {| history_messages := messages st;
               history_currentId := parent_id st |};
          chat_messages := messages_list st;
          chat_tags := [];
          chat_timestamp := base_timestamp;
          chat_files := [] |};
     owc_updated_at := base_timestamp;
     owc_created_at := base_timestamp;
     owc_archived := false;
     owc_pinned := false;
     owc_meta := {| meta_tags := ["aistudio"; "converted"] |} |}.

(** [convert_aistudio_to_openwebui(aistudio_data, filename)]: the
    returned list, together with the heap its references point into. *)
Definition convert_aistudio_to_openwebui (aistudio_data : AIStudioData)
    (filename : option string) : result (Heap * list OpenWebUIChat) :=
  let chunks := chunks_of aistudio_data in
  if negb (list_truthy chunks) then Ok ([], [])
  else
    st ← run_chunks aistudio_data loop_init chunks;
    title ← resolve_title st filename;
    Ok (heap st, [openwebui_chat aistudio_data st title]).

(** *** Vocabulary of the statements *)

(** The chunks that become messages, and their number. *)
Definition turn_chunks (chunks : list Chunk) : list Chunk :=
  List.filter (λ chunk, negb (is_thought chunk)) chunks.

Definition turns (chunks : list Chunk) : nat := length (turn_chunks chunks).

(** The state of the loop after the chunks of a prefix ([run_prefix]
    below shows that the loop does reach one). *)
Definition state_after (aistudio_data : AIStudioData)
    (chunks : list Chunk) : LoopState :=
  match run_chunks aistudio_data loop_init chunks with
  | Ok st => st
  | Raise _ => loop_init
  end.

(** The identifiers drawn for the first [n] messages, and what
    [uuid.uuid4] promises about them: they are pairwise different and
    none is the empty string. *)
Definition message_ids (n : nat) : list string := uuid4 <$> seq 2 n.

Definition fresh_ids (n : nat) : Prop :=
  NoDup (message_ids n) ∧ "" ∉ message_ids n.

(** A message that has no parent has [None] for parent, the [i]-th
    other one the identifier drawn before its own. *)
Definition parent_of_index (i : nat) : option string :=
  match i with
  | O => None
  | S j => Some (uuid4 (2 + j))
  end.

(** The loop invariant that holds for every identifier oracle. *)
Record wf (st : LoopState) : Prop := {
  wf_list : messages_list st = seq 0 (length (heap st));
  wf_index : message_index st = Z.of_nat (length (heap st));
  wf_calls : uuid_calls st = (2 + length (heap st))%nat;
  wf_ids : ∀ i m, heap st !! i = Some m → msg_id m = uuid4 (2 + i);
  wf_parents : ∀ i m, heap st !! i = Some m → msg_parentId m = parent_of_index i;
  wf_parent : parent_id st = parent_of_index (length (heap st));
  wf_dict : ∀ k r, messages st !! k = Some r →
    (r < length (heap st))%nat ∧ uuid4 (2 + r) = k;
  wf_dom : ∀ r, (r < length (heap st))%nat →
    is_Some (messages st !! uuid4 (2 + r))
}.

(** The loop invariant that needs fresh identifiers: the dict maps the
    identifier of every message to that message, and every message
    but the last has the next one for only child. *)
Record chain (st : LoopState) : Prop := {
  chain_dict : ∀ r, (r < length (heap st))%nat →
    messages st !! uuid4 (2 + r) = Some r;
  chain_children : ∀ i m, heap st !! i = Some m →
    msg_childrenIds m =
      if decide (S i < length (heap st))%nat then [uuid4 (2 + S i)] else []
}.

(** Objects of [st] are still there in [st'], changed in their
    children at most. *)
Definition frame (st st' : LoopState) : Prop :=
  ∀ i m, heap st !! i = Some m →
    ∃ m', heap st' !! i = Some m' ∧ set_children [] m' = set_children [] m.

(** The thought text as the specification words it: the flagged parts
    whenever the chunk has a parts list, the flat text otherwise. *)
Definition claimed_thought_text (chunk : Chunk) : string :=
  match chunk_parts chunk with
  | Some thought_parts =>
      Str.join (Str.nl +:+ Str.nl) (thought_texts_of thought_parts)
  | None => default "" (chunk_text chunk)
  end.

(** The document in which every missing key has the default that the
    converter reads for it: the empty string for a text, [False] for
    a flag, the empty list for chunks and parts, ["unknown"] for the
    model, and the assistant role. *)
Definition fill_part (part : Part) : Part :=
  {| part_text := Some (default "" (part_text part));
     part_thought := Some (default false (part_thought part)) |}.

Definition fill_chunk (chunk : Chunk) : Chunk :=
  {| chunk_isThought := Some (default false (chunk_isThought chunk));
     chunk_text := Some (default "" (chunk_text chunk));
     chunk_parts := Some (fill_part <$> default [] (chunk_parts chunk));
     chunk_role := Some (default "assistant" (chunk_role chunk)) |}.

Definition fill_defaults (data : AIStudioData) : AIStudioData :=
  {| chunkedPrompt :=
       Some {| cp_chunks := Some (fill_chunk <$> chunks_of data) |};
     runSettings := Some {| rs_model := Some (model_of data) |} |}.

(** The document [aistudio_data] with [chunks] for its list of chunks. *)
Definition with_chunks (aistudio_data : AIStudioData)
    (chunks : list Chunk) : AIStudioData :=
  {| chunkedPrompt := Some {| cp_chunks := Some chunks |};
     runSettings := runSettings aistudio_data |}.

(** Chunks among which there is no assistant turn: each one is a thought
    chunk or a turn chunk of the user. *)
Definition no_assistant_turn (chunks : list Chunk) : Prop :=
  Forall (λ chunk, is_thought chunk = true ∨ chunk_role chunk = Some "user")
    chunks.

(** The thought texts of the thought chunks among [chunks], in order. *)
Definition thought_texts (chunks : list Chunk) : list string :=
  thought_content_of <$> List.filter is_thought chunks.

(** [str(e)] for an exception that the converter raises on a document
    of the data model.  It raises none on such a document (see
    [convert_chunks] and [convert_no_chunks] below), so that no message
    is ever made of it; what it raises on other parsed values is with
    [env_load]. *)
Definition py_error_text (e : PyError) : string :=
  match e with
  | KeyError => "KeyError"
  | IndexError => "list index out of range"
  | DanglingRef => "dangling reference"
  end.

(** [process_file(input_path, output_path)] (lines 149-176), for the
    identifiers and the clock reading of its one call of the converter:
    the value returned and the world it leaves.  The first arm is the
    [except] clause for everything raised before the output is opened,
    the converter's exceptions on a parsed value outside the data
    model included (see [Env]). *)
Definition process_file {World} (env : Env World)
    (input_path output_path : string) (w : World) : bool * World :=
  match env_load env input_path w with
  | Raised e => (false, env_print env (error_message input_path e) w)
  | Done aistudio_data =>
      let filename := OsPath.basename input_path in
      match convert_aistudio_to_openwebui aistudio_data (Some filename) with
      | Raise e =>
          (false, env_print env (error_message input_path (py_error_text e)) w)
      | Ok openwebui_data =>
          match env_dump env output_path openwebui_data w with
          | (w', Some e) =>
              (false, env_print env (error_message input_path e) w')
          | (w', None) =>
              (true, env_print env (success_message input_path output_path) w')
          end
      end
  end.

(** *** The error monad *)

Lemma bind_Ok {A B} (f : A → result B) (a : A) : (Ok a ≫= f) = f a.
Proof. reflexivity. Qed.

Lemma bind_Ok_inv {A B} (f : A → result B) (m : result A) (b : B) :
  m ≫= f = Ok b → ∃ a, m = Ok a ∧ f a = Ok b.
Proof. destruct m as [a|e]; [eauto | discriminate]. Qed.

(** *** The heap *)

Lemma append_child_live h r child m :
  h !! r = Some m →
  append_child h r child
    = Ok (<[r := set_children (msg_childrenIds m ++ [child]) m]> h).
Proof. intros Hr. unfold append_child, deref. by rewrite Hr. Qed.

(** What [link_parent] returns when the dict holds live references
    only: the same objects, one of them with one more child. *)
Lemma link_parent_live h d parent mid :
  (∀ k r, d !! k = Some r → (r < length h)%nat) →
  ∃ h', link_parent h d parent mid = Ok h'
    ∧ length h' = length h
    ∧ ∀ i m, h !! i = Some m →
        ∃ m', h' !! i = Some m' ∧ set_children [] m' = set_children [] m.
Proof.
  intros Hd. unfold link_parent.
  assert (∃ h', Ok h = Ok h' ∧ length h' = length h
    ∧ ∀ i m, h !! i = Some m →
        ∃ m', h' !! i = Some m' ∧ set_children [] m' = set_children [] m)
    as Hsame by (exists h; eauto).
  destruct parent as [pid|]; [|done].
  destruct (Str.truthy pid); simpl; [|done].
  case_bool_decide as Hin; simpl; [|done].
  destruct Hin as [p Hp]. unfold dict_get. rewrite Hp, bind_Ok.
  destruct (lookup_lt_is_Some_2 h p (Hd _ _ Hp)) as [mp Hmp].
  rewrite (append_child_live _ _ _ _ Hmp).
  eexists; split; [done|]. split; [by rewrite length_insert|].
  intros i m Hi. destruct (decide (i = p)) as [->|Hne].
  - rewrite list_lookup_insert_eq by eauto using lookup_lt_Some.
    eexists; split; [done|]. by simplify_eq.
  - rewrite list_lookup_insert_ne by done. eauto.
Qed.

(** The exact result when the parent is in the dict. *)
Lemma link_parent_Some h d pid p mp mid :
  pid ≠ "" → d !! pid = Some p → h !! p = Some mp →
  link_parent h d (Some pid) mid
    = Ok (<[p := set_children (msg_childrenIds mp ++ [mid]) mp]> h).
Proof.
  intros Hne Hp Hmp. unfold link_parent.
  destruct pid; [done|]. simpl.
  rewrite bool_decide_eq_true_2 by eauto. simpl.
  unfold dict_get. rewrite Hp, bind_Ok. by apply append_child_live.
Qed.


Lemma set_children_fields m m' :
  set_children [] m' = set_children [] m →
  msg_id m' = msg_id m ∧ msg_parentId m' = msg_parentId m
  ∧ msg_role m' = msg_role m ∧ msg_content m' = msg_content m
  ∧ msg_timestamp m' = msg_timestamp m ∧ msg_model m' = msg_model m
  ∧ msg_modelName m' = msg_modelName m ∧ msg_modelIdx m' = msg_modelIdx m
  ∧ msg_done m' = msg_done m.
Proof. unfold set_children. intros [= -> -> -> -> -> -> -> -> ->]. done. Qed.

(** *** One iteration *)

Lemma process_thought data st chunk :
  is_thought chunk = true →
  process_chunk data st chunk
    = Ok {| heap := heap st;
            messages := messages st;
            messages_list := messages_list st;
            parent_id := parent_id st;
            pending_thoughts := pending_thoughts st ++ [thought_content_of chunk];
            message_index := message_index st;
            uuid_calls := uuid_calls st |}.
Proof. intros Ht. unfold process_chunk. by rewrite Ht. Qed.

Lemma process_turn data st chunk :
  wf st → is_thought chunk = false →
  ∃ st', process_chunk data st chunk = Ok st'
    ∧ wf st' ∧ frame st st'
    ∧ length (heap st') = S (length (heap st))
    ∧ (∃ m, heap st' !! length (heap st) = Some m
          ∧ set_children [] m = make_message data st chunk)
    ∧ pending_thoughts st'
        = (if prepends st chunk then [] else pending_thoughts st).
Proof.
  intros Hwf Ht. unfold process_chunk. rewrite Ht.
  set (mid := uuid4 (uuid_calls st)).
  set (msg := make_message data st chunk).
  set (d := <[mid := length (heap st)]> (messages st)).
  assert (mid = uuid4 (2 + length (heap st))) as Hmid
    by (unfold mid; by rewrite (wf_calls _ Hwf)).
  assert (∀ k r, d !! k = Some r →
    (r < S (length (heap st)))%nat ∧ uuid4 (2 + r) = k) as Hd.
  { intros k r. unfold d. rewrite lookup_insert. case_decide as Hk.
    - intros [= <-]. split; [lia|congruence].
    - intros [??]%(wf_dict _ Hwf). split; [lia|done]. }
  destruct (link_parent_live (heap st ++ [msg]) d (parent_id st) mid)
    as (h' & -> & Hlen & Hfr).
  { intros k r [??]%Hd. rewrite length_app. simpl. lia. }
  rewrite length_app, Nat.add_1_r in Hlen.
  assert (∀ i m', h' !! i = Some m' →
    ∃ m, (heap st ++ [msg]) !! i = Some m
         ∧ set_children [] m' = set_children [] m) as Hback.
  { intros i m' Hi.
    destruct (lookup_lt_is_Some_2 (heap st ++ [msg]) i) as [m Hm].
    { rewrite length_app. simpl. apply lookup_lt_Some in Hi. lia. }
    destruct (Hfr _ _ Hm) as (m'' & Hm'' & Heq).
    assert (m'' = m') as -> by congruence. eauto. }
  rewrite bind_Ok. eexists; split; [done|]. simpl.
  split; [|split; [|split; [|split]]].
  - split; simpl.
    + rewrite Hlen, seq_S. simpl. by rewrite (wf_list _ Hwf).
    + rewrite Hlen, (wf_index _ Hwf). lia.
    + rewrite Hlen, (wf_calls _ Hwf). lia.
    + intros i m' (m & Hm & Heq)%Hback.
      apply set_children_fields in Heq as (-> & _).
      apply lookup_app_Some in Hm as [Hm|[Hle Hm]].
      * by apply (wf_ids _ Hwf).
      * apply list_lookup_singleton_Some in Hm as [Hi <-].
        simpl. rewrite (wf_calls _ Hwf). f_equal. lia.
    + intros i m' (m & Hm & Heq)%Hback.
      apply set_children_fields in Heq as (_ & -> & _).
      apply lookup_app_Some in Hm as [Hm|[Hle Hm]].
      * by apply (wf_parents _ Hwf).
      * apply list_lookup_singleton_Some in Hm as [Hi <-].
        simpl. rewrite (wf_parent _ Hwf). f_equal. lia.
    + rewrite Hlen. simpl. by rewrite Hmid.
    + intros k r [??]%Hd. split; [lia|done].
    + intros r Hr. rewrite Hlen in Hr.
      change (S (S r)) with (2 + r)%nat. unfold d. rewrite lookup_insert.
      case_decide as Hr'; [by eauto|]. apply (wf_dom _ Hwf).
      assert (r ≠ length (heap st)) by (intros ->; congruence). lia.
  - intros i m Hi. apply Hfr. by apply lookup_app_l_Some.
  - done.
  - destruct (Hfr (length (heap st)) msg) as (m' & ? & ?); [|by eauto].
    by rewrite list_lookup_middle.
  - done.
Qed.


(** *** The loop *)

Lemma frame_refl st : frame st st.
Proof. intros i m Hi. eauto. Qed.

Lemma frame_trans st1 st2 st3 : frame st1 st2 → frame st2 st3 → frame st1 st3.
Proof.
  intros H12 H23 i m Hi.
  destruct (H12 _ _ Hi) as (m2 & Hi2 & E2).
  destruct (H23 _ _ Hi2) as (m3 & Hi3 & E3).
  exists m3. split; [done|congruence].
Qed.

Lemma wf_init : wf loop_init.
Proof. split; simpl; try done; intros; lia. Qed.

Lemma turns_nil : turns [] = 0%nat.
Proof. reflexivity. Qed.

Lemma turns_cons chunk chunks :
  turns (chunk :: chunks)
    = ((if is_thought chunk then 0 else 1) + turns chunks)%nat.
Proof. unfold turns, turn_chunks. simpl. by destruct (is_thought chunk). Qed.

Lemma turns_app chunks1 chunks2 :
  turns (chunks1 ++ chunks2) = (turns chunks1 + turns chunks2)%nat.
Proof.
  unfold turns, turn_chunks. by rewrite List.filter_app, length_app.
Qed.

Lemma run_chunks_app data st chunks1 chunks2 :
  run_chunks data st (chunks1 ++ chunks2)
    = run_chunks data st chunks1 ≫= λ st', run_chunks data st' chunks2.
Proof.
  revert st. induction chunks1 as [|chunk chunks1 IH]; intros st; [done|].
  simpl. destruct (process_chunk data st chunk) as [st'|e]; [|done].
  rewrite !bind_Ok. apply IH.
Qed.

(** An iteration never raises on a state of the loop. *)
Lemma process_chunk_wf data st chunk :
  wf st →
  ∃ st', process_chunk data st chunk = Ok st'
    ∧ wf st' ∧ frame st st'
    ∧ length (heap st') = (length (heap st) + turns [chunk])%nat.
Proof.
  intros Hwf. rewrite turns_cons. destruct (is_thought chunk) eqn:Ht.
  - rewrite process_thought by done. eexists; split; [done|].
    split; [|split; [intros i m Hi; eauto|rewrite turns_nil; simpl; lia]].
    destruct Hwf. by split.
  - destruct (process_turn data st chunk Hwf Ht)
      as (st' & ? & ? & ? & Hlen & _).
    exists st'. split_and!; try done. rewrite Hlen, turns_nil. lia.
Qed.

Lemma run_chunks_wf data chunks st :
  wf st →
  ∃ st', run_chunks data st chunks = Ok st'
    ∧ wf st' ∧ frame st st'
    ∧ length (heap st') = (length (heap st) + turns chunks)%nat.
Proof.
  revert st. induction chunks as [|chunk chunks IH]; intros st Hwf.
  - exists st. split_and!; try done; try apply frame_refl.
    all: rewrite turns_nil; lia.
  - destruct (process_chunk_wf data st chunk Hwf)
      as (st1 & Hstep & Hwf1 & Hfr1 & Hlen1).
    destruct (IH st1 Hwf1) as (st2 & Hrun & Hwf2 & Hfr2 & Hlen2).
    exists st2. simpl. rewrite Hstep, bind_Ok.
    split_and!; try done; try (by eapply frame_trans).
    rewrite Hlen2, Hlen1, (turns_cons chunk chunks), (turns_cons chunk []).
    rewrite turns_nil. lia.
Qed.

(** The state reached after a prefix of the chunks. *)
Lemma run_prefix data chunks :
  ∃ st, run_chunks data loop_init chunks = Ok st
    ∧ wf st ∧ length (heap st) = turns chunks.
Proof.
  destruct (run_chunks_wf data chunks loop_init wf_init)
    as (st & ? & ? & _ & Hlen).
  exists st. by split_and!.
Qed.

(** The message made for a turn chunk is, in the final heap, at the
    position given by the number of turn chunks before it, and the
    list of messages refers to it there. *)
Lemma run_turn data pre chunk post st :
  run_chunks data loop_init pre = Ok st →
  is_thought chunk = false →
  ∃ st1 st2 m,
    process_chunk data st chunk = Ok st1
    ∧ pending_thoughts st1
        = (if prepends st chunk then [] else pending_thoughts st)
    ∧ run_chunks data loop_init (pre ++ [chunk]) = Ok st1
    ∧ run_chunks data loop_init (pre ++ chunk :: post) = Ok st2
    ∧ wf st2
    ∧ messages_list st2 !! turns pre = Some (turns pre)
    ∧ heap st2 !! turns pre = Some m
    ∧ set_children [] m = make_message data st chunk.
Proof.
  intros Hpre Ht.
  destruct (run_prefix data pre) as (st' & Hpre' & Hwf & Hlen).
  assert (st' = st) as -> by congruence.
  destruct (process_turn data st chunk Hwf Ht)
    as (st1 & Hstep & Hwf1 & _ & _ & (m1 & Hm1 & Em1) & Hpend).
  destruct (run_chunks_wf data post st1 Hwf1)
    as (st2 & Hpost & Hwf2 & Hfr & _).
  destruct (Hfr _ _ Hm1) as (m & Hm & Em).
  exists st1, st2, m. rewrite <- Hlen.
  split_and!; try done.
  - by rewrite run_chunks_app, Hpre, bind_Ok; simpl; rewrite Hstep.
  - by rewrite run_chunks_app, Hpre, bind_Ok; simpl; rewrite Hstep, bind_Ok.
  - rewrite (wf_list _ Hwf2). apply lookup_seq. split; [done|].
    by apply lookup_lt_Some in Hm.
  - congruence.
Qed.


(** *** The title and the returned record *)

Lemma first_message_nil {A} st (field : Message → A) :
  wf st → heap st = [] → messages_list st = [].
Proof. intros Hwf Hh. by rewrite (wf_list _ Hwf), Hh. Qed.

Lemma first_message_cons {A} st (field : Message → A) m h :
  wf st → heap st = m :: h →
  messages_list st !! 0%nat = Some 0%nat
  ∧ list_truthy (messages_list st) = true
  ∧ first_message st field = Ok (field m).
Proof.
  intros Hwf Hh. unfold first_message, deref.
  by rewrite (wf_list _ Hwf), Hh.
Qed.

Lemma resolve_title_hint st f :
  f ≠ "" →
  resolve_title st (Some f) = Ok (OsPath.splitext (OsPath.basename f)).1.
Proof. intros Hf. unfold resolve_title. simpl. by destruct f. Qed.

Lemma resolve_title_no_hint st filename :
  wf st → filename = None ∨ filename = Some "" →
  resolve_title st filename
    = Ok match heap st with
         | [] => "AIStudio Conversation"
         | first :: _ =>
             if bool_decide (msg_role first = "user") then
               if bool_decide (50 < String.length (msg_content first))%nat
               then Str.take 50 (msg_content first) +:+ "..."
               else msg_content first
             else "AIStudio Conversation"
         end.
Proof.
  intros Hwf Hfn. unfold resolve_title.
  replace (from_option Str.truthy false filename) with false
    by (by destruct Hfn as [-> | ->]).
  destruct (heap st) as [|m h] eqn:Hh.
  - by rewrite (first_message_nil st msg_id Hwf Hh).
  - destruct (first_message_cons st msg_role m h Hwf Hh) as (_ & -> & ->).
    destruct (first_message_cons st msg_content m h Hwf Hh) as (_ & _ & ->).
    rewrite !bind_Ok. case_bool_decide; [|done].
    rewrite ?bind_Ok. by case_bool_decide.
Qed.

Lemma resolve_title_total st filename :
  wf st → ∃ title, resolve_title st filename = Ok title.
Proof.
  intros Hwf. destruct filename as [[|a f]|].
  - rewrite resolve_title_no_hint by auto. eauto.
  - rewrite resolve_title_hint by done. eauto.
  - rewrite resolve_title_no_hint by auto. eauto.
Qed.

Lemma list_truthy_true {A} (l : list A) : l ≠ [] → list_truthy l = true.
Proof. by destruct l. Qed.

(** The conversion of a document that has chunks, in terms of the
    final state of the loop. *)
Lemma convert_chunks data filename :
  chunks_of data ≠ [] →
  ∃ st title,
    run_chunks data loop_init (chunks_of data) = Ok st
    ∧ wf st
    ∧ length (heap st) = turns (chunks_of data)
    ∧ resolve_title st filename = Ok title
    ∧ convert_aistudio_to_openwebui data filename
        = Ok (heap st, [openwebui_chat data st title]).
Proof.
  intros Hne.
  destruct (run_prefix data (chunks_of data)) as (st & Hrun & Hwf & Hlen).
  destruct (resolve_title_total st filename Hwf) as [title Htitle].
  exists st, title. split_and!; try done.
  unfold convert_aistudio_to_openwebui.
  rewrite list_truthy_true by done. simpl.
  by rewrite Hrun, bind_Ok, Htitle, bind_Ok.
Qed.

Lemma convert_no_chunks data filename :
  chunks_of data = [] →
  convert_aistudio_to_openwebui data filename = Ok ([], []).
Proof.
  intros Hnil. unfold convert_aistudio_to_openwebui. by rewrite Hnil.
Qed.


(** *** Strings and paths *)

Lemma str_app_cons a s1 s2 : String a s1 +:+ s2 = String a (s1 +:+ s2).
Proof. reflexivity. Qed.

Lemma str_app_nil_r s : s +:+ "" = s.
Proof. induction s as [|a s IH]; [done|]. by rewrite str_app_cons, IH. Qed.

Lemma str_app_assoc s1 s2 s3 : (s1 +:+ s2) +:+ s3 = s1 +:+ s2 +:+ s3.
Proof. induction s1 as [|a s1 IH]; [done|]. by rewrite !str_app_cons, IH. Qed.

Lemma length_str_app s1 s2 :
  String.length (s1 +:+ s2) = (String.length s1 + String.length s2)%nat.
Proof. induction s1 as [|a s1 IH]; [done|]. rewrite str_app_cons. simpl. lia. Qed.

Lemma mem_app c s1 s2 : Str.mem c (s1 +:+ s2) = Str.mem c s1 || Str.mem c s2.
Proof.
  induction s1 as [|a s1 IH]; [done|].
  rewrite str_app_cons. simpl. rewrite IH. by destruct (bool_decide (a = c)).
Qed.

Lemma take_drop n s : Str.take n s +:+ Str.drop n s = s.
Proof.
  revert s. induction n as [|n IH]; intros [|a s]; try done.
  simpl. by rewrite str_app_cons, IH.
Qed.

Lemma take_app_length s1 s2 : Str.take (String.length s1) (s1 +:+ s2) = s1.
Proof.
  induction s1 as [|a s1 IH]; [by destruct s2|].
  rewrite str_app_cons. simpl. by rewrite IH.
Qed.

Lemma drop_app_length s1 s2 : Str.drop (String.length s1) (s1 +:+ s2) = s2.
Proof. induction s1 as [|a s1 IH]; [by destruct s2|]. by rewrite str_app_cons. Qed.

Lemma rfind_ge c s : -1 ≤ Str.rfind c s.
Proof.
  induction s as [|a s IH]; [done|]. simpl. repeat case_bool_decide; lia.
Qed.

Lemma rfind_none c s : Str.rfind c s < 0 → Str.mem c s = false.
Proof.
  induction s as [|a s IH]; [done|]. simpl.
  repeat case_bool_decide; try lia. intros _. simpl. apply IH. lia.
Qed.

(** [rfind] finds the last occurrence. *)
Lemma rfind_split c s :
  0 ≤ Str.rfind c s →
  ∃ s1 s2, s = s1 +:+ String c s2
    ∧ Str.rfind c s = Z.of_nat (String.length s1)
    ∧ Str.mem c s2 = false.
Proof.
  induction s as [|a s IH]; [simpl; lia|]. simpl.
  case_bool_decide as Hr.
  - intros _. destruct (IH Hr) as (s1 & s2 & -> & Hlen & Hmem).
    exists (String a s1), s2. rewrite str_app_cons. split_and!; try done.
    rewrite Hlen. simpl. lia.
  - case_bool_decide as Hc; [|lia]. intros _. subst a.
    exists "", s. split_and!; try done. apply rfind_none. lia.
Qed.

(** [basename] drops a directory prefix, which is empty or ends with a
    slash, and leaves no slash. *)
Lemma basename_spec p :
  ∃ dir, p = dir +:+ OsPath.basename p
    ∧ (dir = "" ∨ ∃ d, dir = d +:+ "/")
    ∧ Str.mem "/" (OsPath.basename p) = false.
Proof.
  unfold OsPath.basename.
  destruct (decide (0 ≤ Str.rfind "/" p)) as [Hr|Hr].
  - destruct (rfind_split _ _ Hr) as (s1 & s2 & -> & -> & Hmem).
    replace (Z.to_nat (Z.of_nat (String.length s1) + 1))
      with (String.length (s1 +:+ "/")).
    2:{ clear. induction s1 as [|a s1 IH]; [done|].
        rewrite str_app_cons. simpl String.length. lia. }
    replace (s1 +:+ String "/" s2) with ((s1 +:+ "/") +:+ s2)
      by by rewrite str_app_assoc.
    rewrite drop_app_length. exists (s1 +:+ "/"). eauto.
  - assert (Str.rfind "/" p < 0) as Hneg by lia.
    assert (Str.rfind "/" p = -1) as ->
      by (pose proof (rfind_ge "/" p); lia).
    exists "". split_and!; auto. by apply rfind_none.
Qed.

(** [splitext] splits off an extension, which is empty or a dot
    followed by a text without dots. *)
Lemma splitext_spec p :
  ∃ ext, p = (OsPath.splitext p).1 +:+ ext
    ∧ (ext = "" ∨ ∃ e, ext = String "." e ∧ Str.mem "." e = false).
Proof.
  unfold OsPath.splitext.
  destruct (_ && _) eqn:Hcond; simpl.
  - apply andb_true_iff in Hcond as [Hlt _].
    apply bool_decide_eq_true in Hlt.
    assert (0 ≤ Str.rfind "." p) as Hr
      by (pose proof (rfind_ge "/" p); lia).
    destruct (rfind_split _ _ Hr) as (s1 & s2 & Hp & Hlen & Hmem).
    exists (String "." s2). rewrite Hlen, Nat2Z.id.
    rewrite Hp at 2. rewrite take_app_length. eauto.
  - exists "". rewrite str_app_nil_r. auto.
Qed.


Example splitext_basename_examples :
  OsPath.basename "exports/2024/chat_2024.json" = "chat_2024.json"
  ∧ OsPath.splitext "chat_2024.json" = ("chat_2024", ".json")
  ∧ OsPath.splitext "archive.tar.gz" = ("archive.tar", ".gz")
  ∧ OsPath.splitext ".hidden" = (".hidden", "")
  ∧ OsPath.splitext "no_extension" = ("no_extension", "")
  ∧ OsPath.basename "exports/" = "".
Proof. by split_and!. Qed.

(** *** Fresh identifiers and the chain of messages *)

Lemma message_ids_lookup n i :
  (i < n)%nat → message_ids n !! i = Some (uuid4 (2 + i)).
Proof.
  intros Hi. unfold message_ids.
  by rewrite list_lookup_fmap, lookup_seq_lt.
Qed.

Lemma fresh_inj n i j :
  fresh_ids n → (i < n)%nat → (j < n)%nat →
  uuid4 (2 + i) = uuid4 (2 + j) → i = j.
Proof.
  intros [Hnd _] Hi Hj Heq.
  eapply NoDup_lookup; [done|by apply message_ids_lookup|].
  rewrite Heq. by apply message_ids_lookup.
Qed.

Lemma fresh_nonempty n i : fresh_ids n → (i < n)%nat → uuid4 (2 + i) ≠ "".
Proof.
  intros [_ Hne] Hi Heq. apply Hne. rewrite <- Heq.
  eapply list_elem_of_lookup_2. by apply message_ids_lookup.
Qed.

Lemma chain_init : chain loop_init.
Proof. split; simpl; [intros; lia|done]. Qed.

Lemma process_turn_chain data n st chunk :
  fresh_ids n → wf st → chain st → (length (heap st) < n)%nat →
  is_thought chunk = false →
  ∃ st', process_chunk data st chunk = Ok st' ∧ chain st'.
Proof.
  intros Hfresh Hwf Hch Hn Ht. unfold process_chunk. rewrite Ht.
  rewrite (wf_calls _ Hwf), (wf_parent _ Hwf).
  set (len := length (heap st)) in *.
  set (msg := make_message data st chunk).
  assert (msg_childrenIds msg = []) as Hmsg by done.
  clearbody msg.
  destruct len as [|j] eqn:Hlen.
  - simpl. eexists; split; [done|].
    apply nil_length_inv in Hlen. rewrite Hlen.
    split; simpl.
    + intros r Hr. assert (r = 0)%nat as -> by lia. apply lookup_insert_eq.
    + intros [|i] m; [|done]. by intros [= <-].
  - destruct (lookup_lt_is_Some_2 (heap st) j) as [mp Hmp]; [unfold len in *; lia|].
    assert (msg_childrenIds mp = []) as Hmp_children.
    { rewrite (chain_children _ Hch _ _ Hmp). fold len. rewrite Hlen.
      by rewrite decide_False by lia. }
    unfold parent_of_index.
    erewrite link_parent_Some; first last.
    + by apply lookup_app_l_Some.
    + rewrite lookup_insert_ne.
      * apply (chain_dict _ Hch). fold len. lia.
      * intros Heq. apply (fresh_inj n) in Heq; [lia|done|lia|lia].
    + apply (fresh_nonempty n); [done|lia].
    + rewrite bind_Ok. eexists; split; [done|].
      rewrite Hmp_children. split; simpl.
      * intros r. rewrite length_insert, length_app. fold len. rewrite Hlen.
        simpl. intros Hr. rewrite lookup_insert. case_decide as Hid.
        -- apply (fresh_inj n) in Hid; [by subst|done|lia|lia].
        -- apply (chain_dict _ Hch). fold len.
           assert (r ≠ S j) by (by intros ->). lia.
      * intros i m. rewrite length_insert, length_app. fold len.
        rewrite Hlen. simpl. intros Hi.
        destruct (decide (i = j)) as [->|Hne].
        -- rewrite list_lookup_insert_eq in Hi.
           2:{ rewrite length_app. fold len. lia. }
           injection Hi as <-. simpl. by rewrite decide_True by lia.
        -- rewrite list_lookup_insert_ne in Hi by done.
           apply lookup_app_Some in Hi as [Hi|[Hle Hi]].
           ++ rewrite (chain_children _ Hch _ _ Hi). fold len. rewrite Hlen.
              apply lookup_lt_Some in Hi. fold len in Hi.
              rewrite !decide_True by lia. done.
           ++ apply list_lookup_singleton_Some in Hi as [Hi <-].
              fold len in Hle, Hi. rewrite Hmsg.
              by rewrite decide_False by lia.
Qed.

Lemma run_chunks_chain data n chunks st :
  fresh_ids n → wf st → chain st →
  (length (heap st) + turns chunks ≤ n)%nat →
  ∃ st', run_chunks data st chunks = Ok st' ∧ chain st'.
Proof.
  intros Hfresh. revert st.
  induction chunks as [|chunk chunks IH]; intros st Hwf Hch Hn; [by eauto|].
  rewrite turns_cons in Hn. simpl.
  destruct (is_thought chunk) eqn:Ht.
  - rewrite process_thought, bind_Ok by done. apply IH; simpl; try done.
    + destruct Hwf. by split.
    + destruct Hch. by split.
  - destruct (process_turn data st chunk Hwf Ht)
      as (st1 & Hstep & Hwf1 & _ & Hlen & _).
    destruct (process_turn_chain data n st chunk) as (st1' & Hstep' & Hch1);
      try done; [lia|].
    assert (st1' = st1) as -> by congruence.
    rewrite Hstep, bind_Ok. apply IH; try done. lia.
Qed.


(** The keys of a message are those it was made with, the children
    apart. *)
Lemma make_message_fields data st chunk m :
  set_children [] m = make_message data st chunk →
  let assistant := bool_decide (role_of chunk = "assistant") in
  msg_id m = uuid4 (uuid_calls st)
  ∧ msg_parentId m = parent_id st
  ∧ msg_role m = role_of chunk
  ∧ msg_content m = content_of st chunk
  ∧ msg_timestamp m = now + message_index st
  ∧ msg_model m = (if assistant then Some (model_of data) else None)
  ∧ msg_modelName m
      = (if assistant then Some "Converted from AIStudio" else None)
  ∧ msg_modelIdx m = (if assistant then Some 0 else None)
  ∧ msg_done m = (if assistant then Some true else None).
Proof.
  intros E. by apply (set_children_fields (make_message data st chunk) m) in E.
Qed.

(** The message of a turn chunk in the returned record. *)
Lemma convert_turn data filename pre chunk post st :
  chunks_of data = pre ++ chunk :: post →
  run_chunks data loop_init pre = Ok st →
  is_thought chunk = false →
  ∃ st1 h out m,
    process_chunk data st chunk = Ok st1
    ∧ run_chunks data loop_init (pre ++ [chunk]) = Ok st1
    ∧ pending_thoughts st1
        = (if prepends st chunk then [] else pending_thoughts st)
    ∧ convert_aistudio_to_openwebui data filename = Ok (h, [out])
    ∧ chat_messages (owc_chat out) !! turns pre = Some (turns pre)
    ∧ h !! turns pre = Some m
    ∧ set_children [] m = make_message data st chunk.
Proof.
  intros Hchunks Hpre Ht.
  destruct (run_turn data pre chunk post st Hpre Ht)
    as (st1 & st2 & m & Hstep & Hpend & Hrun1 & Hrun2 & Hwf2 & Hl & Hm & Em).
  destruct (convert_chunks data filename)
    as (st2' & title & Hrun & _ & _ & _ & Hconv).
  { rewrite Hchunks. by destruct pre. }
  rewrite Hchunks, Hrun2 in Hrun. injection Hrun as <-.
  exists st1, (heap st2), (openwebui_chat data st2 title), m.
  by split_and!.
Qed.

(** An assistant chunk met with a buffer that is not empty. *)
Lemma convert_assistant_with_thoughts data filename pre chunk post st :
  chunks_of data = pre ++ chunk :: post →
  run_chunks data loop_init pre = Ok st →
  is_thought chunk = false →
  chunk_role chunk ≠ Some "user" →
  pending_thoughts st ≠ [] →
  ∃ st1 h out m,
    process_chunk data st chunk = Ok st1
    ∧ run_chunks data loop_init (pre ++ [chunk]) = Ok st1
    ∧ pending_thoughts st1 = []
    ∧ convert_aistudio_to_openwebui data filename = Ok (h, [out])
    ∧ chat_messages (owc_chat out) !! turns pre = Some (turns pre)
    ∧ h !! turns pre = Some m
    ∧ msg_role m = "assistant"
    ∧ msg_content m
        = thought_section
            (Str.join (Str.nl +:+ Str.nl) (pending_thoughts st))
          +:+ default "" (chunk_text chunk).
Proof.
  intros Hchunks Hpre Ht Hrole Hpend.
  destruct (convert_turn data filename pre chunk post st Hchunks Hpre Ht)
    as (st1 & h & out & m & Hstep & Hrun1 & Hpend1 & Hconv & Hl & Hm & Em).
  assert (role_of chunk = "assistant") as Hassistant
    by (unfold role_of; by rewrite bool_decide_eq_false_2).
  assert (prepends st chunk = true) as Hprep.
  { unfold prepends. rewrite Hassistant, list_truthy_true by done. done. }
  rewrite Hprep in Hpend1.
  apply make_message_fields in Em as (_ & _ & Hr & Hc & _).
  exists st1, h, out, m. split_and!; try done.
  - by rewrite Hr.
  - rewrite Hc. unfold content_of. by rewrite Hprep.
Qed.

(** An assistant chunk met with an empty buffer. *)
Lemma convert_assistant_plain data filename pre chunk post st :
  chunks_of data = pre ++ chunk :: post →
  run_chunks data loop_init pre = Ok st →
  is_thought chunk = false →
  chunk_role chunk ≠ Some "user" →
  pending_thoughts st = [] →
  ∃ h out m,
    convert_aistudio_to_openwebui data filename = Ok (h, [out])
    ∧ chat_messages (owc_chat out) !! turns pre = Some (turns pre)
    ∧ h !! turns pre = Some m
    ∧ msg_role m = "assistant"
    ∧ msg_content m = default "" (chunk_text chunk).
Proof.
  intros Hchunks Hpre Ht Hrole Hpend.
  destruct (convert_turn data filename pre chunk post st Hchunks Hpre Ht)
    as (_ & h & out & m & _ & _ & _ & Hconv & Hl & Hm & Em).
  apply make_message_fields in Em as (_ & _ & Hr & Hc & _).
  exists h, out, m. split_and!; try done.
  - rewrite Hr. unfold role_of. by rewrite bool_decide_eq_false_2.
  - rewrite Hc. unfold content_of, prepends. rewrite Hpend. simpl.
    by rewrite andb_false_r.
Qed.

(** The f-string of line 75 and what follows it, piece by piece. *)
Lemma thought_section_text combined_thoughts rest :
  thought_section combined_thoughts +:+ rest
  = (let dq := String "034"%char "" in
     let nl := String "010"%char "" in
     "<details type=" +:+ dq +:+ "reasoning" +:+ dq
       +:+ " done=" +:+ dq +:+ "true" +:+ dq
       +:+ " duration=" +:+ dq +:+ "5" +:+ dq +:+ ">" +:+ nl
       +:+ "<summary>Thought for 5 seconds</summary>" +:+ nl
       +:+ combined_thoughts +:+ nl
       +:+ "</details>" +:+ nl +:+ nl
       +:+ rest).
Proof.
  unfold thought_section, Str.dq, Str.nl. cbv zeta.
  by rewrite !str_app_assoc.
Qed.



(** *** The properties of the specification *)

(** C1. When a turn chunk whose role is not ["user"] is processed while
    the thought buffer is not empty, the content of its message in the
    returned record is the reasoning block (a [details] element of type
    reasoning, with [done] true and [duration] 5, whose summary is
    "Thought for 5 seconds") around the buffered thoughts, joined with
    a blank line, then a blank line, then the text of the chunk.  The
    buffer is empty afterwards: the message of an assistant chunk that
    comes right after it has the text of that chunk for content. *)
Theorem thoughts_prepended data filename pre chunk post st :
  chunks_of data = pre ++ chunk :: post →
  run_chunks data loop_init pre = Ok st →
  is_thought chunk = false →
  chunk_role chunk ≠ Some "user" →
  pending_thoughts st ≠ [] →
  ∃ st1 h out,
    process_chunk data st chunk = Ok st1
    ∧ pending_thoughts st1 = []
    ∧ convert_aistudio_to_openwebui data filename = Ok (h, [out])
    ∧ (∃ r m, chat_messages (owc_chat out) !! turns pre = Some r
         ∧ h !! r = Some m
         ∧ msg_role m = "assistant"
         ∧ msg_content m
             = (let dq := String "034"%char "" in
                let nl := String "010"%char "" in
                "<details type=" +:+ dq +:+ "reasoning" +:+ dq
                  +:+ " done=" +:+ dq +:+ "true" +:+ dq
                  +:+ " duration=" +:+ dq +:+ "5" +:+ dq +:+ ">" +:+ nl
                  +:+ "<summary>Thought for 5 seconds</summary>" +:+ nl
                  +:+ Str.join (nl +:+ nl) (pending_thoughts st) +:+ nl
                  +:+ "</details>" +:+ nl +:+ nl
                  +:+ default "" (chunk_text chunk)))
    ∧ (∀ chunk' post',
         post = chunk' :: post' →
         is_thought chunk' = false →
         chunk_role chunk' ≠ Some "user" →
         ∃ r' m', chat_messages (owc_chat out) !! S (turns pre) = Some r'
           ∧ h !! r' = Some m'
           ∧ msg_role m' = "assistant"
           ∧ msg_content m' = default "" (chunk_text chunk')).
Proof.
  intros Hchunks Hpre Ht Hrole Hpend.
  destruct (convert_assistant_with_thoughts data filename pre chunk post st)
    as (st1 & h & out & m & Hstep & Hrun1 & Hpend1 & Hconv & Hl & Hm & Hr & Hc);
    try done.
  exists st1, h, out. split_and!; try done.
  { exists (turns pre), m. split_and!; try done.
    rewrite Hc. apply thought_section_text. }
  intros chunk' post' -> Ht' Hrole'.
  destruct (convert_assistant_plain data filename (pre ++ [chunk])
              chunk' post' st1)
    as (h' & out' & m' & Hconv' & Hl' & Hm' & Hr' & Hc'); try done.
  { by rewrite <- app_assoc. }
  rewrite Hconv in Hconv'. injection Hconv' as <- <-.
  rewrite turns_app, (turns_cons chunk []), Ht, turns_nil in Hl', Hm'.
  replace (turns pre + (1 + 0))%nat with (S (turns pre)) in Hl', Hm' by lia.
  eauto 10.
Qed.


(** C6. The message of a turn chunk has role ["user"] exactly when the
    role of the chunk is ["user"].  For any other role, a missing one
    included, it is an assistant message that carries the model of the
    run settings (["unknown"] without one), the fixed model name, model
    index 0 and [done = true]; a user message has none of these
    keys. *)
Theorem role_coercion data filename pre chunk post :
  chunks_of data = pre ++ chunk :: post →
  is_thought chunk = false →
  ∃ h out r m,
    convert_aistudio_to_openwebui data filename = Ok (h, [out])
    ∧ chat_messages (owc_chat out) !! turns pre = Some r
    ∧ h !! r = Some m
    ∧ (msg_role m = "user" ↔ chunk_role chunk = Some "user")
    ∧ (chunk_role chunk ≠ Some "user" →
         msg_role m = "assistant"
         ∧ msg_model m
             = Some (default "unknown" (runSettings data ≫= rs_model))
         ∧ msg_modelName m = Some "Converted from AIStudio"
         ∧ msg_modelIdx m = Some 0
         ∧ msg_done m = Some true)
    ∧ (chunk_role chunk = Some "user" →
         msg_model m = None ∧ msg_modelName m = None
         ∧ msg_modelIdx m = None ∧ msg_done m = None).
Proof.
  intros Hchunks Ht.
  destruct (run_prefix data pre) as (st & Hpre & _).
  destruct (convert_turn data filename pre chunk post st Hchunks Hpre Ht)
    as (_ & h & out & m & _ & _ & _ & Hconv & Hl & Hm & Em).
  apply make_message_fields in Em
    as (_ & _ & Hrole & _ & _ & Hmodel & Hname & Hidx & Hdone).
  assert (model_of data = default "unknown" (runSettings data ≫= rs_model))
    as Hmodel_of by (unfold model_of; by destruct (runSettings data)).
  exists h, out, (turns pre), m. split_and!; try done.
  - rewrite Hrole. unfold role_of.
    destruct (decide (chunk_role chunk = Some "user")) as [Hu|Hu].
    + by rewrite bool_decide_eq_true_2.
    + by rewrite bool_decide_eq_false_2.
  - intros Hne. rewrite Hrole, Hmodel, Hname, Hidx, Hdone, <- Hmodel_of.
    assert (role_of chunk = "assistant") as ->
      by (unfold role_of; by rewrite bool_decide_eq_false_2).
    done.
  - intros Huser. rewrite Hmodel, Hname, Hidx, Hdone.
    assert (role_of chunk = "user") as ->
      by (unfold role_of; by rewrite bool_decide_eq_true_2).
    done.
Qed.



(** *** Missing keys *)

Lemma thought_texts_of_fill thought_parts :
  thought_texts_of (fill_part <$> thought_parts)
    = thought_texts_of thought_parts.
Proof.
  induction thought_parts as [|part l IH]; [done|].
  unfold thought_texts_of in *. rewrite fmap_cons. cbn [List.filter].
  change (default false (part_thought (fill_part part)))
    with (default false (part_thought part)).
  destruct (default false (part_thought part)); [|done].
  rewrite !fmap_cons. by f_equal.
Qed.

Lemma thought_content_of_fill chunk :
  thought_content_of (fill_chunk chunk) = thought_content_of chunk.
Proof.
  unfold thought_content_of. simpl. rewrite thought_texts_of_fill.
  by destruct (default [] (chunk_parts chunk)).
Qed.

Lemma role_of_fill chunk : role_of (fill_chunk chunk) = role_of chunk.
Proof.
  unfold role_of. simpl. destruct (chunk_role chunk) as [r|]; [done|].
  by rewrite !bool_decide_eq_false_2.
Qed.

Lemma make_message_fill data st chunk :
  make_message (fill_defaults data) st (fill_chunk chunk)
    = make_message data st chunk.
Proof.
  unfold make_message, content_of, prepends. by rewrite role_of_fill.
Qed.

Lemma process_chunk_fill data st chunk :
  process_chunk (fill_defaults data) st (fill_chunk chunk)
    = process_chunk data st chunk.
Proof.
  unfold process_chunk.
  rewrite make_message_fill, thought_content_of_fill.
  unfold prepends. by rewrite role_of_fill.
Qed.

Lemma run_chunks_fill data st chunks :
  run_chunks (fill_defaults data) st (fill_chunk <$> chunks)
    = run_chunks data st chunks.
Proof.
  revert st. induction chunks as [|chunk chunks IH]; intros st; [done|].
  simpl. rewrite process_chunk_fill.
  destruct (process_chunk data st chunk); [|done]. rewrite !bind_Ok. apply IH.
Qed.

(** C8. A document without chunks (the list is empty, or one of the
    keys that lead to it is missing) is converted to the empty list,
    and no error is raised; a document with a chunk or more is
    converted to a list of one record. *)
Theorem convert_empty_or_single data filename :
  (chunks_of data = [] ↔
     chunkedPrompt data = None
     ∨ ∃ prompt, chunkedPrompt data = Some prompt
         ∧ (cp_chunks prompt = None ∨ cp_chunks prompt = Some []))
  ∧ (chunks_of data = [] →
       convert_aistudio_to_openwebui data filename = Ok ([], []))
  ∧ (chunks_of data ≠ [] →
       ∃ h out, convert_aistudio_to_openwebui data filename = Ok (h, [out])).
Proof.
  split_and!.
  - unfold chunks_of.
    destruct (chunkedPrompt data) as [[[chunks|]]|]; simpl; split; eauto.
    all: try (intros ->; right; by eauto).
    all: try (intros _; right; by eauto).
    intros [?|(prompt & [= <-] & [?|?])]; simpl in *; congruence.
  - apply convert_no_chunks.
  - intros Hne.
    destruct (convert_chunks data filename Hne) as (st & title & _ & _ & _ & _ & ?).
    eauto.
Qed.

(** C9. The conversion of a document returns and raises no error,
    whichever of its keys are missing, and a missing key counts for
    its default: the result is that of the document in which every
    missing key has been given its default. *)
Theorem convert_never_raises data filename :
  (∃ h out, convert_aistudio_to_openwebui data filename = Ok (h, out))
  ∧ convert_aistudio_to_openwebui data filename
      = convert_aistudio_to_openwebui (fill_defaults data) filename.
Proof.
  split.
  - destruct (decide (chunks_of data = [])) as [Hnil|Hne].
    + rewrite convert_no_chunks by done. eauto.
    + destruct (convert_chunks data filename Hne)
        as (st & title & _ & _ & _ & _ & ?).
      eauto.
  - unfold convert_aistudio_to_openwebui.
    change (chunks_of (fill_defaults data)) with (fill_chunk <$> chunks_of data).
    rewrite run_chunks_fill. by destruct (chunks_of data).
Qed.


Lemma turns_all_thoughts chunks :
  Forall (λ chunk, is_thought chunk = true) chunks → turns chunks = 0%nat.
Proof.
  induction 1 as [|chunk chunks Ht _ IH]; [done|].
  by rewrite turns_cons, Ht, IH.
Qed.

(** C3, as the code has it.  For a document with chunks that are all
    thought chunks, the one returned record has no message, and its
    [currentId] is [None] (JSON [null]); it is not the empty
    string. *)
Theorem current_id_without_messages data filename :
  chunks_of data ≠ [] →
  Forall (λ chunk, is_thought chunk = true) (chunks_of data) →
  ∃ out,
    convert_aistudio_to_openwebui data filename = Ok ([], [out])
    ∧ history_currentId (chat_history (owc_chat out)) = None
    ∧ history_messages (chat_history (owc_chat out)) = ∅
    ∧ chat_messages (owc_chat out) = [].
Proof.
  intros Hne Hall.
  destruct (convert_chunks data filename Hne)
    as (st & title & _ & Hwf & Hlen & _ & Hconv).
  rewrite (turns_all_thoughts _ Hall) in Hlen.
  apply nil_length_inv in Hlen.
  exists (openwebui_chat data st title). rewrite <- Hlen. split_and!.
  - done.
  - simpl. by rewrite (wf_parent _ Hwf), Hlen.
  - simpl. apply map_empty. intros k.
    destruct (messages st !! k) as [r|] eqn:Hk; [|done].
    apply (wf_dict _ Hwf) in Hk as [Hr _]. rewrite Hlen in Hr. simpl in Hr. lia.
  - simpl. by rewrite (wf_list _ Hwf), Hlen.
Qed.

(** C4, as the code has it.  The text that a thought chunk adds to the
    thought buffer is the texts of the parts flagged as thought, in
    the order of the parts and joined with a blank line, when the
    chunk has such a part; it is the flat text of the chunk (the empty
    string without one) when the chunk has no parts or none of them
    is flagged. *)
Theorem thought_text_of_chunk data st chunk :
  is_thought chunk = true →
  let flagged :=
    List.filter (λ part, default false (part_thought part))
      (default [] (chunk_parts chunk)) in
  ∃ st' text,
    process_chunk data st chunk = Ok st'
    ∧ pending_thoughts st' = pending_thoughts st ++ [text]
    ∧ heap st' = heap st
    ∧ (flagged ≠ [] →
         text = Str.join (Str.nl +:+ Str.nl)
                  ((λ part, default "" (part_text part)) <$> flagged))
    ∧ (flagged = [] → text = default "" (chunk_text chunk)).
Proof.
  intros Ht flagged. rewrite process_thought by done.
  eexists _, (thought_content_of chunk). split_and!; try done.
  - intros Hne. unfold thought_content_of, thought_texts_of. fold flagged.
    destruct (default [] (chunk_parts chunk)) as [|part l] eqn:Hparts;
      [done|].
    simpl. by destruct flagged.
  - intros Hnil. unfold thought_content_of, thought_texts_of. fold flagged.
    rewrite Hnil. by destruct (default [] (chunk_parts chunk)).
Qed.


(** The returned record of a document with chunks, with both loop
    invariants when the identifiers are fresh. *)
Lemma convert_chain data filename :
  chunks_of data ≠ [] →
  fresh_ids (turns (chunks_of data)) →
  ∃ st title,
    run_chunks data loop_init (chunks_of data) = Ok st
    ∧ wf st ∧ chain st
    ∧ length (heap st) = turns (chunks_of data)
    ∧ convert_aistudio_to_openwebui data filename
        = Ok (heap st, [openwebui_chat data st title]).
Proof.
  intros Hne Hfresh.
  destruct (convert_chunks data filename Hne)
    as (st & title & Hrun & Hwf & Hlen & _ & Hconv).
  destruct (run_chunks_chain data _ (chunks_of data) loop_init Hfresh
              wf_init chain_init) as (st' & Hrun' & Hch); [simpl; lia|].
  assert (st' = st) as -> by congruence.
  by exists st, title.
Qed.

(** C5. In the returned record the keys of [history.messages] are the
    identifiers of the messages of the list [messages], and every key
    is mapped to an object of that list, the one that bears the key
    for identifier.  With fresh identifiers every object of the list
    is in the dict as well, under its identifier. *)
Theorem map_list_consistent data filename :
  chunks_of data ≠ [] →
  ∃ h out,
    convert_aistudio_to_openwebui data filename = Ok (h, [out])
    ∧ let d := history_messages (chat_history (owc_chat out)) in
      let l := chat_messages (owc_chat out) in
      Forall (λ r, is_Some (h !! r)) l
      ∧ dom d = list_to_set (omap (λ r, msg_id <$> h !! r) l)
      ∧ (∀ k r, d !! k = Some r →
           r ∈ l ∧ ∃ m, h !! r = Some m ∧ msg_id m = k)
      ∧ (fresh_ids (turns (chunks_of data)) →
           ∀ r, r ∈ l → ∃ m, h !! r = Some m ∧ d !! msg_id m = Some r).
Proof.
  intros Hne.
  destruct (convert_chunks data filename Hne)
    as (st & title & Hrun & Hwf & Hlen & _ & Hconv).
  exists (heap st), (openwebui_chat data st title).
  split; [done|]. simpl. rewrite (wf_list _ Hwf).
  assert (∀ r, r ∈ seq 0 (length (heap st)) ↔ (r < length (heap st))%nat)
    as Hseq by (intros r; rewrite elem_of_seq; lia).
  split_and!.
  - apply Forall_forall. intros r Hr%Hseq. by apply lookup_lt_is_Some_2.
  - apply set_eq. intros k.
    rewrite elem_of_dom, elem_of_list_to_set, list_elem_of_omap. split.
    + intros [r Hr]. destruct (wf_dict _ Hwf _ _ Hr) as [Hlt Hk].
      destruct (lookup_lt_is_Some_2 _ _ Hlt) as [m Hm].
      exists r. split; [by apply Hseq|].
      rewrite Hm. simpl. f_equal. by rewrite (wf_ids _ Hwf _ _ Hm).
    + intros (r & Hr%Hseq & Hk).
      destruct (heap st !! r) as [m|] eqn:Hm; [|done].
      injection Hk as <-. rewrite (wf_ids _ Hwf _ _ Hm).
      by apply (wf_dom _ Hwf).
  - intros k r Hr. destruct (wf_dict _ Hwf _ _ Hr) as [Hlt Hk].
    destruct (lookup_lt_is_Some_2 _ _ Hlt) as [m Hm].
    split; [by apply Hseq|]. exists m. split; [done|].
    by rewrite (wf_ids _ Hwf _ _ Hm).
  - intros Hfresh r Hr%Hseq.
    destruct (convert_chain data filename Hne Hfresh)
      as (st' & title' & Hrun' & _ & Hch & _).
    assert (st' = st) as -> by congruence.
    destruct (lookup_lt_is_Some_2 _ _ Hr) as [m Hm].
    exists m. split; [done|]. rewrite (wf_ids _ Hwf _ _ Hm).
    by apply (chain_dict _ Hch).
Qed.

(** C2. With fresh identifiers, every message of the list but the
    first has the identifier of the message before it for parent,
    and that message has this one for its only child; the first
    message has no parent and the last no child. *)
Theorem linear_chain data filename :
  chunks_of data ≠ [] →
  fresh_ids (turns (chunks_of data)) →
  ∃ h out,
    convert_aistudio_to_openwebui data filename = Ok (h, [out])
    ∧ let l := chat_messages (owc_chat out) in
      Forall (λ r, is_Some (h !! r)) l
      ∧ length l = turns (chunks_of data)
      ∧ (∀ i r r' m m',
           l !! i = Some r → l !! S i = Some r' →
           h !! r = Some m → h !! r' = Some m' →
           msg_parentId m' = Some (msg_id m)
           ∧ msg_childrenIds m = [msg_id m'])
      ∧ (∀ r m, l !! 0%nat = Some r → h !! r = Some m →
           msg_parentId m = None)
      ∧ (∀ r m, last l = Some r → h !! r = Some m →
           msg_childrenIds m = []).
Proof.
  intros Hne Hfresh.
  destruct (convert_chain data filename Hne Hfresh)
    as (st & title & _ & Hwf & Hch & Hlen & Hconv).
  exists (heap st), (openwebui_chat data st title).
  split; [done|]. simpl. rewrite (wf_list _ Hwf).
  split_and!.
  - apply Forall_forall. intros r Hr%elem_of_seq.
    apply lookup_lt_is_Some_2. lia.
  - by rewrite length_seq.
  - intros i r r' m m' [-> _]%lookup_seq [-> Hlt]%lookup_seq Hm Hm'.
    simpl in *.
    rewrite (wf_parents _ Hwf _ _ Hm'), (wf_ids _ Hwf _ _ Hm).
    rewrite (chain_children _ Hch _ _ Hm), (wf_ids _ Hwf _ _ Hm').
    by rewrite decide_True by lia.
  - intros r m [-> _]%lookup_seq Hm. by rewrite (wf_parents _ Hwf _ _ Hm).
  - intros r m Hlast Hm. rewrite (chain_children _ Hch _ _ Hm).
    rewrite last_lookup, length_seq in Hlast.
    apply lookup_seq in Hlast as [-> Hlt]. simpl.
    by rewrite decide_False by lia.
Qed.


(** C7. The title of the returned record, which is also the title of
    its nested chat.  With a title hint it is the hint without its
    directory and without its extension: the hint is a directory
    prefix (empty, or ending with a slash), the title, which has no
    slash, and an extension (empty, or a dot and a text without dot).
    Without a hint it is the content of the first message when that
    is a user message, cut to its first 50 characters and followed by
    ["..."] when it is longer than that; it is the fixed fallback
    when there is no message or the first one is not a user
    message. *)
Theorem title_resolution data filename :
  chunks_of data ≠ [] →
  ∃ h out,
    convert_aistudio_to_openwebui data filename = Ok (h, [out])
    ∧ let title := owc_title out in
      let l := chat_messages (owc_chat out) in
      chat_title (owc_chat out) = title
      ∧ (∀ f, filename = Some f → f ≠ "" →
           title = (OsPath.splitext (OsPath.basename f)).1
           ∧ Str.mem "/" title = false
           ∧ ∃ dir ext,
               f = dir +:+ title +:+ ext
               ∧ (dir = "" ∨ ∃ d, dir = d +:+ "/")
               ∧ (ext = "" ∨ ∃ e, ext = String "." e ∧ Str.mem "." e = false))
      ∧ (filename = Some "chat_2024.json" → title = "chat_2024")
      ∧ (filename = None ∨ filename = Some "" →
           (l = [] → title = "AIStudio Conversation")
           ∧ ∀ r, l !! 0%nat = Some r →
               ∃ first, h !! r = Some first
                 ∧ (msg_role first = "user" →
                      (String.length (msg_content first) ≤ 50)%nat →
                      title = msg_content first)
                 ∧ (msg_role first = "user" →
                      (50 < String.length (msg_content first))%nat →
                      title = Str.take 50 (msg_content first) +:+ "...")
                 ∧ (msg_role first ≠ "user" →
                      title = "AIStudio Conversation")).
Proof.
  intros Hne.
  destruct (convert_chunks data filename Hne)
    as (st & title & _ & Hwf & _ & Htitle & Hconv).
  exists (heap st), (openwebui_chat data st title).
  split; [done|]. simpl. split_and!; [done|..].
  - intros f -> Hf. rewrite resolve_title_hint in Htitle by done.
    injection Htitle as <-.
    destruct (basename_spec f) as (dir & Hdir & Hslash & Hmem).
    destruct (splitext_spec (OsPath.basename f)) as (ext & Hext & Hdot).
    rewrite Hext, mem_app in Hmem. apply orb_false_iff in Hmem as [Hmem _].
    split_and!; [done|done|]. exists dir, ext. split_and!; try done.
    by rewrite <- Hext.
  - intros ->. rewrite resolve_title_hint in Htitle by done.
    by injection Htitle as <-.
  - intros Hnone. rewrite resolve_title_no_hint in Htitle by done.
    injection Htitle as <-. rewrite (wf_list _ Hwf).
    destruct (heap st) as [|first h] eqn:Hheap; simpl.
    + split; [done|]. by intros r [=].
    + split; [done|]. intros r [= <-]. exists first. split_and!; [done|..].
      * intros Hu Hlen. rewrite bool_decide_eq_true_2 by done.
        by rewrite bool_decide_eq_false_2 by lia.
      * intros Hu Hlen. rewrite bool_decide_eq_true_2 by done.
        by rewrite bool_decide_eq_true_2 by lia.
      * intros Hu. by rewrite bool_decide_eq_false_2.
Qed.


(** *** Further properties of the converter *)

(** The [i]-th turn chunk of a list. *)
Lemma turn_split chunks i :
  (i < turns chunks)%nat →
  ∃ pre chunk post,
    chunks = pre ++ chunk :: post ∧ is_thought chunk = false ∧ turns pre = i.
Proof.
  revert i. induction chunks as [|c chunks IH]; intros i Hi.
  - rewrite turns_nil in Hi. lia.
  - rewrite turns_cons in Hi. destruct (is_thought c) eqn:Hc.
    + destruct (IH i) as (pre & chunk & post & -> & Ht & Hpre); [lia|].
      exists (c :: pre), chunk, post. split_and!; try done.
      by rewrite turns_cons, Hc.
    + destruct i as [|i].
      * by exists [], c, chunks.
      * destruct (IH i) as (pre & chunk & post & -> & Ht & Hpre); [lia|].
        exists (c :: pre), chunk, post. split_and!; try done.
        rewrite turns_cons, Hc. lia.
Qed.

(** The [i]-th message of the returned record: where it is, and the
    chunk and the state it was made from. *)
Lemma convert_message_at data filename i :
  (i < turns (chunks_of data))%nat →
  ∃ pre chunk post st h out m,
    chunks_of data = pre ++ chunk :: post
    ∧ is_thought chunk = false
    ∧ run_chunks data loop_init pre = Ok st
    ∧ wf st
    ∧ length (heap st) = i
    ∧ convert_aistudio_to_openwebui data filename = Ok (h, [out])
    ∧ chat_messages (owc_chat out) = seq 0 (turns (chunks_of data))
    ∧ length h = turns (chunks_of data)
    ∧ h !! i = Some m
    ∧ set_children [] m = make_message data st chunk.
Proof.
  intros Hi.
  destruct (turn_split _ _ Hi) as (pre & chunk & post & Hchunks & Ht & Hpre).
  destruct (run_prefix data pre) as (st & Hrun & Hwf & Hlen).
  destruct (run_turn data pre chunk post st Hrun Ht)
    as (st1 & st2 & m & _ & _ & _ & Hrun2 & Hwf2 & _ & Hm & Em).
  destruct (convert_chunks data filename)
    as (st2' & title & Hrun2' & _ & Hlen2 & _ & Hconv).
  { rewrite Hchunks. by destruct pre. }
  rewrite Hchunks, Hrun2 in Hrun2'. injection Hrun2' as <-.
  exists pre, chunk, post, st, (heap st2), (openwebui_chat data st2 title), m.
  rewrite Hpre in Hm, Hlen.
  split_and!; try done. simpl. by rewrite (wf_list _ Hwf2), Hlen2.
Qed.

(** What the returned record of a document with chunks is made of. *)
Lemma convert_layout data filename :
  chunks_of data ≠ [] →
  ∃ h out,
    convert_aistudio_to_openwebui data filename = Ok (h, [out])
    ∧ chat_messages (owc_chat out) = seq 0 (turns (chunks_of data))
    ∧ length h = turns (chunks_of data)
    ∧ history_currentId (chat_history (owc_chat out))
        = parent_of_index (turns (chunks_of data))
    ∧ owc_id out = uuid4 0 ∧ owc_user_id out = uuid4 1
    ∧ chat_timestamp (owc_chat out) = now
    ∧ owc_created_at out = now ∧ owc_updated_at out = now
    ∧ chat_models (owc_chat out) = [model_of data].
Proof.
  intros Hne.
  destruct (convert_chunks data filename Hne)
    as (st & title & _ & Hwf & Hlen & _ & Hconv).
  exists (heap st), (openwebui_chat data st title). simpl.
  split_and!; try done.
  - by rewrite (wf_list _ Hwf), Hlen.
  - by rewrite (wf_parent _ Hwf), Hlen.
Qed.

Lemma lookup_seq_0 n i r : seq 0 n !! i = Some r → r = i ∧ (i < n)%nat.
Proof. by intros [-> ?]%lookup_seq. Qed.

(** X1. A document with chunks gives one message for each chunk that is
    not a thought chunk, and none for a thought chunk: the list of
    messages has as many entries as there are turn chunks, no object is
    listed twice, and the objects listed are those that were made. *)
Theorem one_message_per_turn_chunk data filename :
  chunks_of data ≠ [] →
  ∃ h out,
    convert_aistudio_to_openwebui data filename = Ok (h, [out])
    ∧ let l := chat_messages (owc_chat out) in
      length l = turns (chunks_of data)
      ∧ length h = turns (chunks_of data)
      ∧ NoDup l
      ∧ ∀ r, r ∈ l ↔ is_Some (h !! r).
Proof.
  intros Hne.
  destruct (convert_layout data filename Hne)
    as (h & out & Hconv & Hl & Hh & _).
  exists h, out. split; [done|]. simpl. rewrite Hl. split_and!.
  - by rewrite length_seq.
  - done.
  - apply NoDup_seq.
  - intros r. rewrite elem_of_seq, lookup_lt_is_Some. lia.
Qed.

(** X2. The timestamp of the [i]-th message is the clock reading plus
    [i], so that timestamps follow the order of the list in steps of
    one, and the first is the timestamp of the record. *)
Theorem timestamps_sequential data filename :
  chunks_of data ≠ [] →
  ∃ h out,
    convert_aistudio_to_openwebui data filename = Ok (h, [out])
    ∧ chat_timestamp (owc_chat out) = now
    ∧ owc_created_at out = now ∧ owc_updated_at out = now
    ∧ ∀ i r m,
        chat_messages (owc_chat out) !! i = Some r →
        h !! r = Some m →
        msg_timestamp m = now + Z.of_nat i.
Proof.
  intros Hne.
  destruct (convert_layout data filename Hne)
    as (h & out & Hconv & Hl & _ & _ & _ & _ & Hts & Hc & Hu & _).
  exists h, out. split_and!; try done.
  intros i r m Hi Hm. rewrite Hl in Hi. apply lookup_seq_0 in Hi as [-> Hi].
  destruct (convert_message_at data filename i Hi)
    as (pre & chunk & post & st & h' & out' & m' & _ & _ & _ & Hwf & Hlen
        & Hconv' & _ & _ & Hm' & Em).
  rewrite Hconv in Hconv'. injection Hconv' as <- <-.
  assert (m' = m) as -> by congruence.
  apply make_message_fields in Em as (_ & _ & _ & _ & Htime & _).
  by rewrite Htime, (wf_index _ Hwf), Hlen.
Qed.


(** X3. Identifiers are used in the order in which they are drawn: the
    first for the chat, the second for the user, and the following ones
    for the messages, in the order of the list. *)
Theorem identifiers_in_draw_order data filename :
  chunks_of data ≠ [] →
  ∃ h out,
    convert_aistudio_to_openwebui data filename = Ok (h, [out])
    ∧ owc_id out = uuid4 0
    ∧ owc_user_id out = uuid4 1
    ∧ ∀ i r m,
        chat_messages (owc_chat out) !! i = Some r →
        h !! r = Some m →
        msg_id m = uuid4 (2 + i).
Proof.
  intros Hne.
  destruct (convert_chunks data filename Hne)
    as (st & title & _ & Hwf & _ & _ & Hconv).
  exists (heap st), (openwebui_chat data st title).
  split_and!; try done. simpl. rewrite (wf_list _ Hwf).
  intros i r m [-> _]%lookup_seq_0 Hm. by apply (wf_ids _ Hwf).
Qed.

(** X4. Whatever the identifiers are, equal ones included, the parent
    of every message but the first is the identifier of the message
    before it in the list, the first message has no parent, and
    [currentId] is the identifier of the last message. *)
Theorem parents_and_head_for_any_oracle data filename :
  chunks_of data ≠ [] →
  ∃ h out,
    convert_aistudio_to_openwebui data filename = Ok (h, [out])
    ∧ let l := chat_messages (owc_chat out) in
      (∀ i r r' m m',
         l !! i = Some r → l !! S i = Some r' →
         h !! r = Some m → h !! r' = Some m' →
         msg_parentId m' = Some (msg_id m))
      ∧ (∀ r m, l !! 0%nat = Some r → h !! r = Some m →
           msg_parentId m = None)
      ∧ (∀ r m, last l = Some r → h !! r = Some m →
           history_currentId (chat_history (owc_chat out)) = Some (msg_id m)).
Proof.
  intros Hne.
  destruct (convert_chunks data filename Hne)
    as (st & title & _ & Hwf & _ & _ & Hconv).
  exists (heap st), (openwebui_chat data st title).
  split; [done|]. simpl. rewrite (wf_list _ Hwf). split_and!.
  - intros i r r' m m' [-> _]%lookup_seq_0 [-> _]%lookup_seq_0 Hm Hm'.
    by rewrite (wf_parents _ Hwf _ _ Hm'), (wf_ids _ Hwf _ _ Hm).
  - intros r m [-> _]%lookup_seq_0 Hm. by rewrite (wf_parents _ Hwf _ _ Hm).
  - intros r m Hlast Hm. rewrite last_lookup, length_seq in Hlast.
    apply lookup_seq_0 in Hlast as [-> Hlt].
    rewrite (wf_parent _ Hwf), (wf_ids _ Hwf _ _ Hm).
    destruct (length (heap st)) as [|n]; [lia|].
    done.
Qed.

(** X5. The message of a turn chunk of the user has the text of the
    chunk for content, the empty string when the chunk has none,
    whatever the thought buffer holds; and the buffer is the same after
    the chunk as before. *)
Theorem user_content_plain data filename pre chunk post st :
  chunks_of data = pre ++ chunk :: post →
  run_chunks data loop_init pre = Ok st →
  is_thought chunk = false →
  chunk_role chunk = Some "user" →
  ∃ st1 h out r m,
    process_chunk data st chunk = Ok st1
    ∧ pending_thoughts st1 = pending_thoughts st
    ∧ convert_aistudio_to_openwebui data filename = Ok (h, [out])
    ∧ chat_messages (owc_chat out) !! turns pre = Some r
    ∧ h !! r = Some m
    ∧ msg_role m = "user"
    ∧ msg_content m = default "" (chunk_text chunk).
Proof.
  intros Hchunks Hpre Ht Hrole.
  destruct (convert_turn data filename pre chunk post st Hchunks Hpre Ht)
    as (st1 & h & out & m & Hstep & _ & Hpend & Hconv & Hl & Hm & Em).
  assert (role_of chunk = "user") as Huser
    by (unfold role_of; by rewrite bool_decide_eq_true_2).
  assert (prepends st chunk = false) as Hprep
    by (unfold prepends; by rewrite Huser).
  rewrite Hprep in Hpend.
  apply make_message_fields in Em as (_ & _ & Hr & Hc & _).
  exists st1, h, out, (turns pre), m. split_and!; try done.
  - by rewrite Hr.
  - rewrite Hc. unfold content_of. by rewrite Hprep.
Qed.

(** X6. Every message of the returned record is a user message or an
    assistant message.  An assistant message has the four model keys,
    and its model is the one model of the list [models] of the record;
    a user message has none of the four keys. *)
Theorem message_shapes data filename :
  chunks_of data ≠ [] →
  ∃ h out model,
    convert_aistudio_to_openwebui data filename = Ok (h, [out])
    ∧ chat_models (owc_chat out) = [model]
    ∧ ∀ r m,
        r ∈ chat_messages (owc_chat out) → h !! r = Some m →
        (msg_role m = "user"
         ∧ msg_model m = None ∧ msg_modelName m = None
         ∧ msg_modelIdx m = None ∧ msg_done m = None)
        ∨ (msg_role m = "assistant"
           ∧ msg_model m = Some model
           ∧ msg_modelName m = Some "Converted from AIStudio"
           ∧ msg_modelIdx m = Some 0 ∧ msg_done m = Some true).
Proof.
  intros Hne.
  destruct (convert_layout data filename Hne)
    as (h & out & Hconv & Hl & _ & _ & _ & _ & _ & _ & _ & Hmodels).
  exists h, out, (model_of data). split_and!; try done.
  intros r m Hr Hm. rewrite Hl in Hr. apply elem_of_seq in Hr.
  destruct (convert_message_at data filename r)
    as (pre & chunk & post & st & h' & out' & m' & _ & _ & _ & _ & _
        & Hconv' & _ & _ & Hm' & Em); [lia|].
  rewrite Hconv in Hconv'. injection Hconv' as <- <-.
  assert (m' = m) as -> by congruence.
  apply make_message_fields in Em
    as (_ & _ & Hrole & _ & _ & Hmodel & Hname & Hidx & Hdone).
  rewrite Hrole, Hmodel, Hname, Hidx, Hdone. unfold role_of.
  destruct (bool_decide (chunk_role chunk = Some "user")); [by left|by right].
Qed.


(** A segment without assistant turn adds the texts of its thought
    chunks to the buffer and takes nothing from it. *)
Lemma run_no_assistant data chunks st :
  wf st → no_assistant_turn chunks →
  ∃ st', run_chunks data st chunks = Ok st'
    ∧ pending_thoughts st' = pending_thoughts st ++ thought_texts chunks.
Proof.
  intros Hwf Hno. revert st Hwf.
  induction Hno as [|chunk chunks Hchunk _ IH]; intros st Hwf.
  - exists st. split; [done|]. unfold thought_texts. simpl.
    by rewrite app_nil_r.
  - destruct (process_chunk_wf data st chunk Hwf) as (st1 & Hstep & Hwf1 & _).
    destruct (IH st1 Hwf1) as (st2 & Hrun & Hpend).
    exists st2. simpl. rewrite Hstep, bind_Ok. split; [done|].
    rewrite Hpend. unfold thought_texts. simpl.
    destruct (is_thought chunk) eqn:Ht.
    + rewrite process_thought in Hstep by done. injection Hstep as <-.
      simpl. by rewrite <- app_assoc.
    + destruct Hchunk as [?|Hrole]; [done|].
      destruct (process_turn data st chunk Hwf Ht)
        as (st1' & Hstep' & _ & _ & _ & _ & Hpend1).
      assert (st1' = st1) as -> by congruence.
      rewrite Hpend1. unfold prepends, role_of.
      by rewrite (bool_decide_eq_true_2 _ Hrole).
Qed.

(** After an assistant turn the buffer is empty. *)
Lemma pending_after_assistant data pre chunk st :
  run_chunks data loop_init (pre ++ [chunk]) = Ok st →
  is_thought chunk = false → chunk_role chunk ≠ Some "user" →
  pending_thoughts st = [].
Proof.
  intros Hrun Ht Hrole.
  destruct (run_prefix data pre) as (st0 & Hpre & _).
  destruct (run_turn data pre chunk [] st0 Hpre Ht)
    as (st1 & _ & _ & _ & Hpend & Hrun1 & _).
  assert (st1 = st) as -> by congruence.
  rewrite Hpend. unfold prepends, role_of.
  rewrite (bool_decide_eq_false_2 _ Hrole). simpl.
  by destruct (pending_thoughts st0).
Qed.

(** X7. The content of an assistant message is decided by the thought
    chunks that lie between its chunk and the assistant turn before it
    (or the start of the conversation), turns of the user in between
    notwithstanding: without such thought chunks it is the text of the
    chunk, otherwise the reasoning block (the [details] element with
    the summary "Thought for 5 seconds") around their texts, joined in
    order with a blank line, followed by a blank line and the text of
    the chunk. *)
Theorem thoughts_since_last_assistant data filename pre mid chunk post :
  chunks_of data = pre ++ mid ++ chunk :: post →
  (pre = [] ∨ ∃ pre' previous,
     pre = pre' ++ [previous]
     ∧ is_thought previous = false ∧ chunk_role previous ≠ Some "user") →
  no_assistant_turn mid →
  is_thought chunk = false →
  chunk_role chunk ≠ Some "user" →
  ∃ h out r m,
    convert_aistudio_to_openwebui data filename = Ok (h, [out])
    ∧ chat_messages (owc_chat out) !! turns (pre ++ mid) = Some r
    ∧ h !! r = Some m
    ∧ msg_role m = "assistant"
    ∧ msg_content m
        = match thought_texts mid with
          | [] => default "" (chunk_text chunk)
          | _ :: _ =>
              let dq := String "034"%char "" in
              let nl := String "010"%char "" in
              "<details type=" +:+ dq +:+ "reasoning" +:+ dq
                +:+ " done=" +:+ dq +:+ "true" +:+ dq
                +:+ " duration=" +:+ dq +:+ "5" +:+ dq +:+ ">" +:+ nl
                +:+ "<summary>Thought for 5 seconds</summary>" +:+ nl
                +:+ Str.join (nl +:+ nl) (thought_texts mid) +:+ nl
                +:+ "</details>" +:+ nl +:+ nl
                +:+ default "" (chunk_text chunk)
          end.
Proof.
  intros Hchunks Hpre Hmid Ht Hrole.
  destruct (run_prefix data pre) as (st0 & Hrun0 & Hwf0 & _).
  assert (pending_thoughts st0 = []) as Hpend0.
  { destruct Hpre as [->|(pre' & previous & -> & Ht' & Hrole')].
    - by injection Hrun0 as <-.
    - by eapply pending_after_assistant. }
  destruct (run_no_assistant data mid st0 Hwf0 Hmid) as (st1 & Hrun1 & Hpend1).
  rewrite Hpend0 in Hpend1. simpl in Hpend1.
  assert (run_chunks data loop_init (pre ++ mid) = Ok st1) as Hrun
    by (by rewrite run_chunks_app, Hrun0, bind_Ok).
  destruct (thought_texts mid) as [|text texts] eqn:Htexts.
  - destruct (convert_assistant_plain data filename (pre ++ mid) chunk post st1)
      as (h & out & m & ?); [by rewrite <- app_assoc|done..|].
    exists h, out, (turns (pre ++ mid)), m. naive_solver.
  - destruct (convert_assistant_with_thoughts data filename (pre ++ mid)
                chunk post st1)
      as (_ & h & out & m & _ & _ & _ & Hconv & Hl & Hm & Hr & Hc);
      [by rewrite <- app_assoc|done|done|done|by rewrite Hpend1|].
    exists h, out, (turns (pre ++ mid)), m. rewrite Hpend1 in Hc.
    split_and!; try done. rewrite Hc. apply thought_section_text.
Qed.

Lemma process_chunk_model data data' st chunk :
  model_of data = model_of data' →
  process_chunk data st chunk = process_chunk data' st chunk.
Proof.
  intros Hmodel. unfold process_chunk, make_message. by rewrite Hmodel.
Qed.

Lemma run_chunks_model data data' st chunks :
  model_of data = model_of data' →
  run_chunks data st chunks = run_chunks data' st chunks.
Proof.
  intros Hmodel. revert st.
  induction chunks as [|chunk chunks IH]; intros st; [done|].
  simpl. rewrite (process_chunk_model data data') by done.
  destruct (process_chunk data' st chunk); [|done]. rewrite !bind_Ok. apply IH.
Qed.

(** Thought chunks change nothing but the buffer. *)
Lemma run_thoughts data chunks st :
  Forall (λ chunk, is_thought chunk = true) chunks →
  ∃ st', run_chunks data st chunks = Ok st'
    ∧ heap st' = heap st ∧ messages st' = messages st
    ∧ messages_list st' = messages_list st ∧ parent_id st' = parent_id st.
Proof.
  intros Hall. revert st.
  induction Hall as [|chunk chunks Ht _ IH]; intros st; [by exists st|].
  simpl. rewrite process_thought, bind_Ok by done.
  destruct (IH {| heap := heap st;
                  messages := messages st;
                  messages_list := messages_list st;
                  parent_id := parent_id st;
                  pending_thoughts :=
                    pending_thoughts st ++ [thought_content_of chunk];
                  message_index := message_index st;
                  uuid_calls := uuid_calls st |})
    as (st' & Hrun & ? & ? & ? & ?).
  by exists st'.
Qed.

(** X8. Thought chunks at the end of a conversation, after which no
    assistant turn comes, are dropped: the conversion returns what it
    returns without them. *)
Theorem trailing_thoughts_dropped data filename chunks thoughts :
  chunks ≠ [] →
  Forall (λ chunk, is_thought chunk = true) thoughts →
  convert_aistudio_to_openwebui (with_chunks data (chunks ++ thoughts)) filename
    = convert_aistudio_to_openwebui (with_chunks data chunks) filename.
Proof.
  intros Hne Hall. unfold convert_aistudio_to_openwebui.
  change (chunks_of (with_chunks data (chunks ++ thoughts)))
    with (chunks ++ thoughts).
  change (chunks_of (with_chunks data chunks)) with chunks.
  rewrite !list_truthy_true by (by destruct chunks). simpl.
  rewrite (run_chunks_model _ (with_chunks data chunks)) by done.
  rewrite run_chunks_app.
  destruct (run_chunks (with_chunks data chunks) loop_init chunks)
    as [st|e]; [|done].
  rewrite bind_Ok.
  destruct (run_thoughts (with_chunks data chunks) thoughts st Hall)
    as (st' & -> & Hheap & Hmessages & Hlist & Hparent).
  rewrite !bind_Ok.
  assert (resolve_title st' filename = resolve_title st filename) as ->
    by (unfold resolve_title, first_message; by rewrite Hheap, Hlist).
  destruct (resolve_title st filename) as [title|e]; [|done].
  rewrite !bind_Ok. unfold openwebui_chat.
  by rewrite Hheap, Hmessages, Hlist, Hparent.
Qed.


(** X9. Chunks added at the end of a conversation leave the messages
    made before them as they are, their children apart: the list of
    messages of the shorter conversation is a prefix of the list of the
    longer one, and each of its messages has the same identifier,
    parent, role, content, timestamp and model keys in both. *)
Theorem earlier_messages_stable data filename chunks more :
  chunks ≠ [] →
  ∃ h out h' out',
    convert_aistudio_to_openwebui (with_chunks data chunks) filename
      = Ok (h, [out])
    ∧ convert_aistudio_to_openwebui (with_chunks data (chunks ++ more)) filename
        = Ok (h', [out'])
    ∧ chat_messages (owc_chat out) `prefix_of` chat_messages (owc_chat out')
    ∧ ∀ r m, h !! r = Some m →
        ∃ m', h' !! r = Some m'
          ∧ msg_id m' = msg_id m ∧ msg_parentId m' = msg_parentId m
          ∧ msg_role m' = msg_role m ∧ msg_content m' = msg_content m
          ∧ msg_timestamp m' = msg_timestamp m ∧ msg_model m' = msg_model m
          ∧ msg_modelName m' = msg_modelName m
          ∧ msg_modelIdx m' = msg_modelIdx m ∧ msg_done m' = msg_done m.
Proof.
  intros Hne.
  set (short := with_chunks data chunks).
  set (long := with_chunks data (chunks ++ more)).
  destruct (convert_chunks short filename)
    as (st & title & Hrun & Hwf & _ & _ & Hconv); [done|].
  destruct (convert_chunks long filename)
    as (st' & title' & Hrun' & Hwf' & _ & _ & Hconv'); [by destruct chunks|].
  change (chunks_of short) with chunks in Hrun.
  change (chunks_of long) with (chunks ++ more) in Hrun'.
  rewrite (run_chunks_model long short), run_chunks_app, Hrun, bind_Ok
    in Hrun' by done.
  destruct (run_chunks_wf short more st Hwf) as (st'' & Hmore & _ & Hfr & Hlen).
  assert (st'' = st') as -> by congruence.
  exists (heap st), (openwebui_chat short st title),
    (heap st'), (openwebui_chat long st' title').
  split_and!; try done.
  - simpl. rewrite (wf_list _ Hwf), (wf_list _ Hwf'), Hlen, seq_app.
    by apply prefix_app_r.
  - intros r m Hm. destruct (Hfr _ _ Hm) as (m' & Hm' & Em).
    exists m'. split; [done|]. by apply set_children_fields.
Qed.

Lemma length_str_take n s : (String.length (Str.take n s) ≤ n)%nat.
Proof.
  revert s. induction n as [|n IH]; intros [|a s]; simpl; try lia.
  specialize (IH s). lia.
Qed.

Lemma no_hint_title_bound st filename :
  wf st → filename = None ∨ filename = Some "" →
  ∃ title, resolve_title st filename = Ok title
    ∧ (String.length title ≤ 53)%nat.
Proof.
  intros Hwf Hnone. rewrite resolve_title_no_hint by done.
  eexists; split; [done|].
  destruct (heap st) as [|first h]; [simpl; lia|].
  case_bool_decide; [|simpl; lia].
  case_bool_decide; [|lia].
  rewrite length_str_app. pose proof (length_str_take 50 (msg_content first)).
  change (String.length "...") with 3%nat. lia.
Qed.

(** X10. The title is never longer than what it is taken from: with a
    title hint it is not longer than the hint, and without one it has
    53 characters at most (50 of the first message and the three dots),
    however long the first message is. *)
Theorem title_length_bound data filename :
  chunks_of data ≠ [] →
  ∃ h out,
    convert_aistudio_to_openwebui data filename = Ok (h, [out])
    ∧ (∀ f, filename = Some f → f ≠ "" →
         (String.length (owc_title out) ≤ String.length f)%nat)
    ∧ (filename = None ∨ filename = Some "" →
         (String.length (owc_title out) ≤ 53)%nat).
Proof.
  intros Hne.
  destruct (convert_chunks data filename Hne)
    as (st & title & _ & Hwf & _ & Htitle & Hconv).
  exists (heap st), (openwebui_chat data st title).
  split; [done|]. simpl. split.
  - intros f -> Hf. rewrite resolve_title_hint in Htitle by done.
    injection Htitle as <-.
    destruct (basename_spec f) as (dir & Hdir & _).
    destruct (splitext_spec (OsPath.basename f)) as (ext & Hext & _).
    rewrite Hdir at 2. rewrite Hext at 2. rewrite !length_str_app. lia.
  - intros Hnone.
    destruct (no_hint_title_bound st filename Hwf Hnone) as (title' & ? & ?).
    by assert (title' = title) as -> by congruence.
Qed.

(** The keys of the dict are the identifiers drawn for the messages. *)
Lemma wf_dom_ids st :
  wf st → dom (messages st) = list_to_set (message_ids (length (heap st))).
Proof.
  intros Hwf. apply set_eq. intros k.
  rewrite elem_of_dom, elem_of_list_to_set. unfold message_ids.
  rewrite list_elem_of_fmap. split.
  - intros [r [Hlt <-]%(wf_dict _ Hwf)]. exists (2 + r)%nat.
    split; [done|]. apply elem_of_seq. lia.
  - intros (j & -> & Hj%elem_of_seq).
    replace j with (2 + (j - 2))%nat by lia. apply (wf_dom _ Hwf). lia.
Qed.

Lemma size_list_to_set_le (l : list string) :
  (size (list_to_set l : gset string) ≤ length l)%nat.
Proof.
  induction l as [|x l IH]; [done|].
  rewrite list_to_set_cons, size_union_alt, size_singleton. simpl.
  pose proof (subseteq_size (list_to_set l ∖ {[x]} : gset string)
                (list_to_set l) (subseteq_difference_l _ _ _ (reflexivity _)))
    as Hsub.
  lia.
Qed.

(** X11. The dict [history.messages] has no more entries than the list
    [messages], and with fresh identifiers it has as many: no message
    is lost from the dict. *)
Theorem history_size data filename :
  chunks_of data ≠ [] →
  ∃ h out,
    convert_aistudio_to_openwebui data filename = Ok (h, [out])
    ∧ let d := history_messages (chat_history (owc_chat out)) in
      let l := chat_messages (owc_chat out) in
      (size d ≤ length l)%nat
      ∧ (fresh_ids (turns (chunks_of data)) → size d = length l).
Proof.
  intros Hne.
  destruct (convert_chunks data filename Hne)
    as (st & title & _ & Hwf & Hlen & _ & Hconv).
  exists (heap st), (openwebui_chat data st title).
  split; [done|]. simpl.
  rewrite <- size_dom, (wf_dom_ids _ Hwf), (wf_list _ Hwf), length_seq.
  assert (length (message_ids (length (heap st))) = length (heap st)) as Hids
    by (unfold message_ids; by rewrite length_fmap, length_seq).
  split.
  - rewrite <- Hids at 2. apply size_list_to_set_le.
  - rewrite <- Hlen. intros [Hnodup _].
    by rewrite size_list_to_set, Hids.
Qed.


(** *** The drivers *)

Lemma str_app_inj_r s1 s2 suffix : s1 +:+ suffix = s2 +:+ suffix → s1 = s2.
Proof.
  intros Heq.
  assert (String.length s1 = String.length s2) as Hlen.
  { apply (f_equal String.length) in Heq. rewrite !length_str_app in Heq. lia. }
  rewrite <- (take_app_length s1 suffix), Heq, Hlen. apply take_app_length.
Qed.

Lemma length_str_drop n s :
  String.length (Str.drop n s) = (String.length s - n)%nat.
Proof. revert s. induction n as [|n IH]; intros [|a s]; simpl; auto. Qed.

(** [endswith] holds of the strings that are made of a prefix and the
    suffix. *)
Lemma endswith_spec s suffix :
  Files.endswith s suffix = true ↔ ∃ s', s = s' +:+ suffix.
Proof.
  unfold Files.endswith. rewrite andb_true_iff, !bool_decide_eq_true. split.
  - intros [_ Hdrop].
    exists (Str.take (String.length s - String.length suffix) s).
    rewrite <- Hdrop at 2. by rewrite take_drop.
  - intros [s' ->]. rewrite length_str_app. split; [lia|].
    replace (String.length s' + String.length suffix - String.length suffix)%nat
      with (String.length s') by lia.
    apply drop_app_length.
Qed.

Lemma endswith_app s suffix : Files.endswith (s +:+ suffix) suffix = true.
Proof. apply endswith_spec. eauto. Qed.

Lemma str_app_length_neq s suffix : suffix ≠ "" → s ≠ s +:+ suffix.
Proof.
  intros Hne Heq. apply (f_equal String.length) in Heq.
  rewrite length_str_app in Heq. destruct suffix; [done|]. simpl in Heq. lia.
Qed.

(** X12. The name of the output file always ends with [.json]: a name
    that ends with it is kept, any other name gets it appended, and
    naming twice is naming once. *)
Theorem output_filename_json filename :
  Files.endswith (Files.output_filename filename) ".json" = true
  ∧ (Files.endswith filename ".json" = true →
       Files.output_filename filename = filename)
  ∧ (Files.endswith filename ".json" = false →
       Files.output_filename filename = filename +:+ ".json"
       ∧ Files.output_filename filename ≠ filename)
  ∧ Files.output_filename (Files.output_filename filename)
      = Files.output_filename filename.
Proof.
  unfold Files.output_filename.
  destruct (Files.endswith filename ".json") eqn:Hends.
  - rewrite Hends. by split_and!.
  - rewrite endswith_app. split_and!; try done.
    intros _. split; [done|]. intros Heq.
    by apply (str_app_length_neq filename ".json").
Qed.

(** X13. Two entries of a directory get the same output name exactly
    when they are one entry, or when one is the other, which does not
    end with [.json], followed by [.json]: the entries [a] and [a.json]
    of one batch are written to one file. *)
Theorem output_filename_collisions filename1 filename2 :
  Files.output_filename filename1 = Files.output_filename filename2
  ↔ filename1 = filename2
    ∨ (Files.endswith filename1 ".json" = false
       ∧ filename2 = filename1 +:+ ".json")
    ∨ (Files.endswith filename2 ".json" = false
       ∧ filename1 = filename2 +:+ ".json").
Proof.
  unfold Files.output_filename.
  destruct (Files.endswith filename1 ".json") eqn:H1,
    (Files.endswith filename2 ".json") eqn:H2.
  - split; [by left|]. by intros [?|[[? _]|[? _]]].
  - split; [intros ->; by right; right|].
    intros [->|[[? _]|[_ ->]]]; [congruence|done|done].
  - split; [intros ->; by right; left|].
    intros [->|[[_ ->]|[? _]]]; [congruence|done|done].
  - split.
    + intros ?%str_app_inj_r. by left.
    + intros [->|[[_ ->]|[_ ->]]]; [done|..].
      * by rewrite endswith_app in H2.
      * by rewrite endswith_app in H1.
Qed.


Lemma mem_rfind c s : Str.mem c s = false → Str.rfind c s = -1.
Proof.
  induction s as [|a s IH]; [done|]. simpl.
  intros [Ha Hs]%orb_false_iff. rewrite (IH Hs), Ha.
  by rewrite bool_decide_eq_false_2 by lia.
Qed.

Lemma rfind_app_last c s1 s2 :
  Str.mem c s2 = false →
  Str.rfind c (s1 +:+ String c s2) = Z.of_nat (String.length s1).
Proof.
  intros Hmem. induction s1 as [|a s1 IH].
  - change ("" +:+ String c s2) with (String c s2). simpl. rewrite (mem_rfind _ _ Hmem).
    rewrite bool_decide_eq_false_2 by lia. by rewrite bool_decide_eq_true_2.
  - rewrite str_app_cons. simpl Str.rfind. rewrite IH.
    rewrite bool_decide_eq_true_2 by lia. simpl String.length. lia.
Qed.

Lemma basename_no_slash p : Str.mem "/" p = false → OsPath.basename p = p.
Proof. intros Hmem. unfold OsPath.basename. by rewrite (mem_rfind _ _ Hmem). Qed.

Lemma basename_after_slash p filename :
  Str.mem "/" filename = false →
  OsPath.basename (p +:+ "/" +:+ filename) = filename.
Proof.
  intros Hmem. unfold OsPath.basename.
  change ("/" +:+ filename) with (String "/" filename).
  rewrite (rfind_app_last _ _ _ Hmem).
  replace (Z.to_nat (Z.of_nat (String.length p) + 1))
    with (String.length (p +:+ "/")) by (rewrite length_str_app; simpl; lia).
  change (String "/" filename) with ("/" +:+ filename).
  rewrite <- str_app_assoc. apply drop_app_length.
Qed.

Lemma basename_idempotent p :
  OsPath.basename (OsPath.basename p) = OsPath.basename p.
Proof.
  destruct (basename_spec p) as (_ & _ & _ & Hmem). by apply basename_no_slash.
Qed.

Lemma startswith_slash filename :
  Str.mem "/" filename = false → Files.startswith filename "/" = false.
Proof.
  destruct filename as [|a filename]; [done|]. simpl.
  intros [Ha _]%orb_false_iff. apply bool_decide_eq_false in Ha.
  rewrite bool_decide_eq_false_2 by congruence. done.
Qed.

(** The entry name is what [basename] finds in the path that [join]
    makes of a directory and the entry. *)
Lemma basename_join input_dir filename :
  Str.mem "/" filename = false →
  OsPath.basename (Files.join input_dir filename) = filename.
Proof.
  intros Hmem. unfold Files.join. rewrite (startswith_slash _ Hmem).
  destruct input_dir as [|a input_dir]; simpl negb.
  - simpl. change ("" +:+ filename) with filename. by apply basename_no_slash.
  - simpl orb. destruct (Files.endswith (String a input_dir) "/") eqn:Hends.
    + apply endswith_spec in Hends as [p ->]. rewrite str_app_assoc.
      by apply basename_after_slash.
    + by apply basename_after_slash.
Qed.






(** X15. The record that [process_file] writes for a document with
    chunks has the name of the input file, without directory and
    extension, for title, whatever the first message is; in a batch
    this is the name of the directory entry without its extension. *)
Theorem process_file_title {World} (env : Env World)
    input_path output_path w data :
  env_load env input_path w = Done data →
  chunks_of data ≠ [] →
  OsPath.basename input_path ≠ "" →
  ∃ h out,
    convert_aistudio_to_openwebui data (Some (OsPath.basename input_path))
      = Ok (h, [out])
    ∧ (process_file env input_path output_path w).1
        = bool_decide ((env_dump env output_path (h, [out]) w).2 = None)
    ∧ owc_title out = (OsPath.splitext (OsPath.basename input_path)).1
    ∧ chat_title (owc_chat out) = owc_title out
    ∧ ∀ input_dir filename,
        input_path = Files.join input_dir filename →
        Str.mem "/" filename = false →
        owc_title out = (OsPath.splitext filename).1.
Proof.
  intros Hload Hne Hbase.
  destruct (convert_chunks data (Some (OsPath.basename input_path)) Hne)
    as (st & title & _ & _ & _ & Htitle & Hconv).
  rewrite resolve_title_hint, basename_idempotent in Htitle by done.
  injection Htitle as <-.
  eexists _, _. split; [done|]. split_and!; try done.
  - unfold process_file. rewrite Hload, Hconv.
    by destruct (env_dump _ _ _ _) as [w' [e|]].
  - intros input_dir filename -> Hmem. simpl. by rewrite basename_join.
Qed.








End Converter.

(** ** The properties on the sample documents *)

Lemma thoughts_prepended_witness :
  let pre := [Sample.question; Sample.thought "t1"; Sample.thought_in_parts] in
  let st := state_after Sample.uuid4 Sample.clock Sample.conversation pre in
  pending_thoughts st = ["t1"; "first" +:+ Str.nl +:+ Str.nl +:+ "second"]
  ∧ ∃ h out r m r' m',
      convert_aistudio_to_openwebui Sample.uuid4 Sample.clock
        Sample.conversation None = Ok (h, [out])
      ∧ chat_messages (owc_chat out) !! 1%nat = Some r
      ∧ h !! r = Some m
      ∧ msg_content m
          = (let dq := String "034"%char "" in
             let nl := String "010"%char "" in
             "<details type=" +:+ dq +:+ "reasoning" +:+ dq
               +:+ " done=" +:+ dq +:+ "true" +:+ dq
               +:+ " duration=" +:+ dq +:+ "5" +:+ dq +:+ ">" +:+ nl
               +:+ "<summary>Thought for 5 seconds</summary>" +:+ nl
               +:+ "t1" +:+ nl +:+ nl +:+ "first" +:+ nl +:+ nl +:+ "second" +:+ nl
               +:+ "</details>" +:+ nl +:+ nl
               +:+ "yo")
      ∧ chat_messages (owc_chat out) !! 2%nat = Some r'
      ∧ h !! r' = Some m'
      ∧ msg_content m' = "again".
Proof.
  intros pre st. split; [vm_compute; reflexivity|].
  assert (chunks_of Sample.conversation
            = pre ++ Sample.answer :: [Sample.follow_up]) as Hchunks
    by reflexivity.
  assert (run_chunks Sample.uuid4 Sample.clock Sample.conversation
            loop_init pre = Ok st) as Hpre
    by (vm_compute; reflexivity).
  assert (is_thought Sample.answer = false) as Hturn by reflexivity.
  assert (chunk_role Sample.answer ≠ Some "user") as Hrole by discriminate.
  assert (pending_thoughts st ≠ []) as Hpending
    by (vm_compute; discriminate).
  destruct (thoughts_prepended Sample.uuid4 Sample.clock Sample.conversation
              None pre Sample.answer [Sample.follow_up] st
              Hchunks Hpre Hturn Hrole Hpending)
    as (st1 & h & out & _ & _ & Hconv & (r & m & Hl & Hm & _ & Hc) & Hnext).
  destruct (Hnext Sample.follow_up [])
    as (r' & m' & Hl' & Hm' & _ & Hc');
    [reflexivity|reflexivity|discriminate|].
  exists h, out, r, m, r', m'. by split_and!.
Defined.

Lemma linear_chain_witness :
  ∃ h out,
    convert_aistudio_to_openwebui Sample.uuid4 Sample.clock
      Sample.conversation None = Ok (h, [out])
    ∧ length (chat_messages (owc_chat out)) = 3%nat
    ∧ ∀ i r r' m m',
        chat_messages (owc_chat out) !! i = Some r →
        chat_messages (owc_chat out) !! S i = Some r' →
        h !! r = Some m → h !! r' = Some m' →
        msg_parentId m' = Some (msg_id m) ∧ msg_childrenIds m = [msg_id m'].
Proof.
  assert (chunks_of Sample.conversation ≠ []) as Hchunks by discriminate.
  assert (fresh_ids Sample.uuid4 (turns (chunks_of Sample.conversation)))
    as Hfresh by fresh_sample_ids.
  destruct (linear_chain Sample.uuid4 Sample.clock Sample.conversation None
              Hchunks Hfresh)
    as (h & out & Hconv & _ & Hlen & Hlink & _).
  exists h, out. by split_and!.
Defined.

Lemma current_id_without_messages_witness :
  ∃ out,
    convert_aistudio_to_openwebui Sample.uuid4 Sample.clock
      Sample.only_thoughts None = Ok ([], [out])
    ∧ history_currentId (chat_history (owc_chat out)) = None.
Proof.
  assert (chunks_of Sample.only_thoughts ≠ []) as Hchunks by discriminate.
  assert (Forall (λ chunk, is_thought chunk = true)
            (chunks_of Sample.only_thoughts)) as Hthoughts
    by (repeat constructor).
  destruct (current_id_without_messages Sample.uuid4 Sample.clock
              Sample.only_thoughts None Hchunks Hthoughts)
    as (out & Hconv & Hcurrent & _).
  by exists out.
Defined.

(** C3, as the specification has it, fails: the chunks of this document
    are all thought chunks, and the [currentId] of the record is not the
    empty string. *)
Lemma current_id_empty_string_counterexample :
  chunks_of Sample.only_thoughts ≠ []
  ∧ Forall (λ chunk, is_thought chunk = true) (chunks_of Sample.only_thoughts)
  ∧ ∃ h out,
      convert_aistudio_to_openwebui Sample.uuid4 Sample.clock
        Sample.only_thoughts None = Ok (h, [out])
      ∧ history_currentId (chat_history (owc_chat out)) = None
      ∧ history_currentId (chat_history (owc_chat out)) ≠ Some "".
Proof.
  split; [discriminate|]. split; [repeat constructor|].
  eexists _, _. split; [vm_compute; reflexivity|]. by split.
Qed.

Lemma thought_text_of_chunk_witness :
  ∃ st',
    process_chunk Sample.uuid4 Sample.clock Sample.conversation loop_init
      Sample.thought_in_parts = Ok st'
    ∧ pending_thoughts st' = ["first" +:+ Str.nl +:+ Str.nl +:+ "second"].
Proof.
  assert (is_thought Sample.thought_in_parts = true) as Hthought
    by reflexivity.
  destruct (thought_text_of_chunk Sample.uuid4 Sample.clock
              Sample.conversation loop_init Sample.thought_in_parts Hthought)
    as (st' & text & Hstep & Hpending & _ & Hflagged & _).
  exists st'. split; [done|]. rewrite Hpending, Hflagged; [done|discriminate].
Defined.

(** C4, as the specification has it, fails: this thought chunk has a
    parts list in which no part is flagged; the specification makes its
    thought text the empty join, the converter takes the flat text. *)
Lemma thought_text_counterexample :
  is_thought Sample.thought_unflagged = true
  ∧ claimed_thought_text Sample.thought_unflagged = ""
  ∧ thought_content_of Sample.thought_unflagged = "flat"
  ∧ ∃ st',
      process_chunk Sample.uuid4 Sample.clock Sample.only_thoughts loop_init
        Sample.thought_unflagged = Ok st'
      ∧ pending_thoughts st' = ["flat"]
      ∧ pending_thoughts st'
          ≠ [claimed_thought_text Sample.thought_unflagged].
Proof.
  split_and!; try reflexivity.
  eexists. split; [reflexivity|]. split; [reflexivity|discriminate].
Qed.

Lemma map_list_consistent_witness :
  ∃ h out,
    convert_aistudio_to_openwebui Sample.uuid4 Sample.clock
      Sample.conversation None = Ok (h, [out])
    ∧ dom (history_messages (chat_history (owc_chat out)))
        = list_to_set
            (omap (λ r, msg_id <$> h !! r) (chat_messages (owc_chat out)))
    ∧ ∀ r, r ∈ chat_messages (owc_chat out) →
        ∃ m, h !! r = Some m
          ∧ history_messages (chat_history (owc_chat out)) !! msg_id m = Some r.
Proof.
  assert (chunks_of Sample.conversation ≠ []) as Hchunks by discriminate.
  destruct (map_list_consistent Sample.uuid4 Sample.clock Sample.conversation
              None Hchunks)
    as (h & out & Hconv & _ & Hdom & _ & Hall).
  exists h, out. split_and!; [done|done|].
  apply Hall. fresh_sample_ids.
Defined.

Lemma role_coercion_witness :
  ∃ h out r m,
    convert_aistudio_to_openwebui Sample.uuid4 Sample.clock
      Sample.conversation None = Ok (h, [out])
    ∧ chat_messages (owc_chat out) !! 1%nat = Some r
    ∧ h !! r = Some m
    ∧ msg_role m = "assistant"
    ∧ msg_model m = Some "models/gemini-pro"
    ∧ msg_modelName m = Some "Converted from AIStudio"
    ∧ msg_modelIdx m = Some 0
    ∧ msg_done m = Some true.
Proof.
  assert (chunks_of Sample.conversation
            = [Sample.question; Sample.thought "t1"; Sample.thought_in_parts]
                ++ Sample.answer :: [Sample.follow_up]) as Hchunks
    by reflexivity.
  assert (is_thought Sample.answer = false) as Hturn by reflexivity.
  destruct (role_coercion Sample.uuid4 Sample.clock Sample.conversation None
              _ _ _ Hchunks Hturn)
    as (h & out & r & m & Hconv & Hl & Hm & _ & Hassistant & _).
  destruct Hassistant as (? & ? & ? & ? & ?); [discriminate|].
  exists h, out, r, m. by split_and!.
Defined.

Lemma title_resolution_witness :
  ∃ h out,
    convert_aistudio_to_openwebui Sample.uuid4 Sample.clock
      Sample.conversation (Some "exports/chat_2024.json") = Ok (h, [out])
    ∧ owc_title out = "chat_2024"
    ∧ chat_title (owc_chat out) = "chat_2024".
Proof.
  assert (chunks_of Sample.conversation ≠ []) as Hchunks by discriminate.
  destruct (title_resolution Sample.uuid4 Sample.clock Sample.conversation
              (Some "exports/chat_2024.json") Hchunks)
    as (h & out & Hconv & Hchat & Hhint & _).
  destruct (Hhint "exports/chat_2024.json") as (Htitle & _);
    [reflexivity|discriminate|].
  exists h, out. split_and!; [done|by rewrite Htitle|by rewrite Hchat, Htitle].
Defined.


Lemma one_message_per_turn_chunk_witness :
  ∃ h out,
    convert_aistudio_to_openwebui Sample.uuid4 Sample.clock
      Sample.conversation None = Ok (h, [out])
    ∧ length (chat_messages (owc_chat out)) = 3%nat
    ∧ length h = 3%nat.
Proof.
  assert (chunks_of Sample.conversation ≠ []) as Hchunks by discriminate.
  destruct (one_message_per_turn_chunk Sample.uuid4 Sample.clock
              Sample.conversation None Hchunks)
    as (h & out & Hconv & Hl & Hh & _).
  by exists h, out.
Defined.

Lemma timestamps_sequential_witness :
  ∃ h out,
    convert_aistudio_to_openwebui Sample.uuid4 Sample.clock
      Sample.conversation None = Ok (h, [out])
    ∧ chat_timestamp (owc_chat out) = 1700000000
    ∧ ∀ r m,
        chat_messages (owc_chat out) !! 2%nat = Some r → h !! r = Some m →
        msg_timestamp m = 1700000002.
Proof.
  assert (chunks_of Sample.conversation ≠ []) as Hchunks by discriminate.
  destruct (timestamps_sequential Sample.uuid4 Sample.clock
              Sample.conversation None Hchunks)
    as (h & out & Hconv & Hts & _ & _ & Hmsg).
  exists h, out. split_and!; [done|done|].
  intros r m Hl Hm. by rewrite (Hmsg _ _ _ Hl Hm).
Defined.

Lemma identifiers_in_draw_order_witness :
  ∃ h out,
    convert_aistudio_to_openwebui Sample.uuid4 Sample.clock
      Sample.conversation None = Ok (h, [out])
    ∧ owc_id out = "id-0" ∧ owc_user_id out = "id-1"
    ∧ ∀ r m,
        chat_messages (owc_chat out) !! 0%nat = Some r → h !! r = Some m →
        msg_id m = "id-2".
Proof.
  assert (chunks_of Sample.conversation ≠ []) as Hchunks by discriminate.
  destruct (identifiers_in_draw_order Sample.uuid4 Sample.clock
              Sample.conversation None Hchunks)
    as (h & out & Hconv & Hid & Huser & Hmsg).
  exists h, out. split_and!; [done|done|done|].
  intros r m Hl Hm. by rewrite (Hmsg _ _ _ Hl Hm).
Defined.

Lemma parents_and_head_for_any_oracle_witness :
  ∃ h out,
    convert_aistudio_to_openwebui Sample.same_uuid4 Sample.clock
      Sample.conversation None = Ok (h, [out])
    ∧ ∀ r m,
        last (chat_messages (owc_chat out)) = Some r → h !! r = Some m →
        history_currentId (chat_history (owc_chat out)) = Some (msg_id m).
Proof.
  assert (chunks_of Sample.conversation ≠ []) as Hchunks by discriminate.
  destruct (parents_and_head_for_any_oracle Sample.same_uuid4 Sample.clock
              Sample.conversation None Hchunks)
    as (h & out & Hconv & _ & _ & Hhead).
  by exists h, out.
Defined.

Lemma user_content_plain_witness :
  let data :=
    Sample.document [Sample.thought "t1"; Sample.question; Sample.answer] in
  ∃ h out r m,
    convert_aistudio_to_openwebui Sample.uuid4 Sample.clock data None
      = Ok (h, [out])
    ∧ chat_messages (owc_chat out) !! 0%nat = Some r
    ∧ h !! r = Some m
    ∧ msg_content m = "hi".
Proof.
  intros data.
  assert (chunks_of data
            = [Sample.thought "t1"] ++ Sample.question :: [Sample.answer])
    as Hchunks by reflexivity.
  assert (run_chunks Sample.uuid4 Sample.clock data loop_init
            [Sample.thought "t1"]
          = Ok (state_after Sample.uuid4 Sample.clock data
                  [Sample.thought "t1"])) as Hpre
    by (vm_compute; reflexivity).
  assert (is_thought Sample.question = false) as Hturn by reflexivity.
  assert (chunk_role Sample.question = Some "user") as Hrole by reflexivity.
  destruct (user_content_plain Sample.uuid4 Sample.clock data None _ _ _ _
              Hchunks Hpre Hturn Hrole)
    as (st1 & h & out & r & m & _ & _ & Hconv & Hl & Hm & _ & Hcontent).
  by exists h, out, r, m.
Defined.

Lemma message_shapes_witness :
  ∃ h out,
    convert_aistudio_to_openwebui Sample.uuid4 Sample.clock
      Sample.conversation None = Ok (h, [out])
    ∧ ∀ r m,
        r ∈ chat_messages (owc_chat out) → h !! r = Some m →
        msg_role m = "user" ∨ msg_role m = "assistant".
Proof.
  assert (chunks_of Sample.conversation ≠ []) as Hchunks by discriminate.
  destruct (message_shapes Sample.uuid4 Sample.clock Sample.conversation None
              Hchunks)
    as (h & out & model & Hconv & _ & Hshape).
  exists h, out. split; [done|]. intros r m Hr Hm.
  destruct (Hshape r m Hr Hm) as [[? _]|[? _]]; [by left|by right].
Defined.

Lemma thoughts_since_last_assistant_witness :
  let data :=
    Sample.document
      [Sample.answer; Sample.thought "t1"; Sample.question;
       Sample.thought "t2"; Sample.follow_up] in
  ∃ h out r m,
    convert_aistudio_to_openwebui Sample.uuid4 Sample.clock data None
      = Ok (h, [out])
    ∧ chat_messages (owc_chat out) !! 2%nat = Some r
    ∧ h !! r = Some m
    ∧ msg_content m
        = (let dq := String "034"%char "" in
           let nl := String "010"%char "" in
           "<details type=" +:+ dq +:+ "reasoning" +:+ dq
             +:+ " done=" +:+ dq +:+ "true" +:+ dq
             +:+ " duration=" +:+ dq +:+ "5" +:+ dq +:+ ">" +:+ nl
             +:+ "<summary>Thought for 5 seconds</summary>" +:+ nl
             +:+ "t1" +:+ nl +:+ nl +:+ "t2" +:+ nl
             +:+ "</details>" +:+ nl +:+ nl
             +:+ "again").
Proof.
  intros data.
  assert (chunks_of data
            = [Sample.answer]
                ++ [Sample.thought "t1"; Sample.question; Sample.thought "t2"]
                ++ Sample.follow_up :: []) as Hchunks by reflexivity.
  assert ([Sample.answer] = []
          ∨ ∃ pre' previous,
              [Sample.answer] = pre' ++ [previous]
              ∧ is_thought previous = false
              ∧ chunk_role previous ≠ Some "user") as Hpre
    by (right; by exists [], Sample.answer).
  assert (no_assistant_turn
            [Sample.thought "t1"; Sample.question; Sample.thought "t2"])
    as Hmid by (repeat constructor).
  assert (is_thought Sample.follow_up = false) as Hturn by reflexivity.
  assert (chunk_role Sample.follow_up ≠ Some "user") as Hrole by discriminate.
  destruct (thoughts_since_last_assistant Sample.uuid4 Sample.clock data None
              _ _ _ _ Hchunks Hpre Hmid Hturn Hrole)
    as (h & out & r & m & Hconv & Hl & Hm & _ & Hcontent).
  by exists h, out, r, m.
Defined.

Lemma trailing_thoughts_dropped_witness :
  convert_aistudio_to_openwebui Sample.uuid4 Sample.clock
    (Sample.document
       [Sample.question; Sample.answer; Sample.thought "t1";
        Sample.thought_blank]) None
  = convert_aistudio_to_openwebui Sample.uuid4 Sample.clock
      (Sample.document [Sample.question; Sample.answer]) None.
Proof.
  assert ([Sample.question; Sample.answer] ≠ []) as Hchunks by discriminate.
  assert (Forall (λ chunk, is_thought chunk = true)
            [Sample.thought "t1"; Sample.thought_blank]) as Hthoughts
    by (repeat constructor).
  exact (trailing_thoughts_dropped Sample.uuid4 Sample.clock
           Sample.conversation None _ _ Hchunks Hthoughts).
Defined.

Lemma earlier_messages_stable_witness :
  ∃ h out h' out',
    convert_aistudio_to_openwebui Sample.uuid4 Sample.clock
      (Sample.document [Sample.question; Sample.answer]) None = Ok (h, [out])
    ∧ convert_aistudio_to_openwebui Sample.uuid4 Sample.clock
        (Sample.document
           [Sample.question; Sample.answer; Sample.thought "t1";
            Sample.follow_up]) None = Ok (h', [out'])
    ∧ chat_messages (owc_chat out) `prefix_of` chat_messages (owc_chat out').
Proof.
  assert ([Sample.question; Sample.answer] ≠ []) as Hchunks by discriminate.
  destruct (earlier_messages_stable Sample.uuid4 Sample.clock
              Sample.conversation None [Sample.question; Sample.answer]
              [Sample.thought "t1"; Sample.follow_up] Hchunks)
    as (h & out & h' & out' & Hconv & Hconv' & Hprefix & _).
  by exists h, out, h', out'.
Defined.

Lemma title_length_bound_witness :
  ∃ h out,
    convert_aistudio_to_openwebui Sample.uuid4 Sample.clock
      (Sample.document [Sample.long_question; Sample.answer]) None
      = Ok (h, [out])
    ∧ (String.length (owc_title out) ≤ 53)%nat.
Proof.
  assert (chunks_of (Sample.document [Sample.long_question; Sample.answer])
            ≠ []) as Hchunks by discriminate.
  destruct (title_length_bound Sample.uuid4 Sample.clock
              (Sample.document [Sample.long_question; Sample.answer]) None
              Hchunks)
    as (h & out & Hconv & _ & Hbound).
  exists h, out. split; [done|]. apply Hbound. by left.
Defined.

Lemma history_size_witness :
  ∃ h out,
    convert_aistudio_to_openwebui Sample.uuid4 Sample.clock
      Sample.conversation None = Ok (h, [out])
    ∧ size (history_messages (chat_history (owc_chat out)))
        = length (chat_messages (owc_chat out)).
Proof.
  assert (chunks_of Sample.conversation ≠ []) as Hchunks by discriminate.
  destruct (history_size Sample.uuid4 Sample.clock Sample.conversation None
              Hchunks)
    as (h & out & Hconv & _ & Hsize).
  exists h, out. split; [done|]. apply Hsize. fresh_sample_ids.
Defined.

Lemma process_file_title_witness :
  ∃ h out,
    convert_aistudio_to_openwebui Sample.uuid4 Sample.clock
      Sample.conversation (Some "chat.json") = Ok (h, [out])
    ∧ (process_file Sample.uuid4 Sample.clock Sample.env
         "in/chat.json" "out/chat.json" []).1 = true
    ∧ owc_title out = "chat".
Proof.
  assert (env_load Sample.env "in/chat.json" [] = Done Sample.conversation)
    as Hload by reflexivity.
  assert (chunks_of Sample.conversation ≠ []) as Hchunks by discriminate.
  assert (OsPath.basename "in/chat.json" ≠ "") as Hbase by discriminate.
  destruct (process_file_title Sample.uuid4 Sample.clock Sample.env
              "in/chat.json" "out/chat.json" [] Sample.conversation
              Hload Hchunks Hbase)
    as (h & out & Hconv & Hresult & Htitle & _).
  exists h, out. by split_and!.
Defined.



